(** * Clipboard Copy Tool: a shallow embedding of [script.js]

    The script has two functions of interest, [readTextFromTarget] and
    [copyText], and one click handler that combines four fields.  They talk
    to the browser through a handful of host calls
    ([document.querySelector], [navigator.clipboard.writeText],
    [document.createElement], [appendChild], [focus], [select],
    [document.execCommand], [removeChild], [console.warn], [console.error]).

    The embedding keeps the code's shape: JavaScript values are an inductive
    type with the language's truthiness and strict equality; the document and
    the record of host calls are an explicit [world]; the code runs in a small
    state-and-exception monad with a [try_catch] combinator; how the browser
    answers each host call is a [host] record, so that every theorem
    quantifies over the browser's behaviour.

    One call is followed from start to end: the [await] of line 28 is the
    point where the promise of [writeText] settles, and no other task of the
    event loop runs in between.  A promise that never settles is not a
    behaviour of [host]; the script has no timeout for it.  The status line
    and the copy-all button are taken to exist, as lines 5-7 and 100 need. *)

From Stdlib Require Import String Ascii List ZArith Bool Lia Floats DecimalString.
Import ListNotations.
Local Open Scope string_scope.

(** ** JavaScript values *)

Module JS.

(** The primitive values.  Numbers are IEEE doubles, as in the language. *)
Inductive value : Type :=
| Undefined
| Null
| Boolean (b : bool)
| Number (x : float)
| BigInt (z : Z)
| String (s : string).

(** [s] is truthy exactly when it is not the empty string. *)
Definition string_truthy (s : string) : bool :=
  match s with
  | EmptyString => false
  | _ => true
  end.

(** ToBoolean: [undefined], [null], [false], [+0], [-0], [NaN], [0n] and [""]
    are falsy, everything else is truthy. *)
Definition to_boolean (v : value) : bool :=
  match v with
  | Undefined => false
  | Null => false
  | Boolean b => b
  | Number x => negb (PrimFloat.eqb x 0%float || PrimFloat.is_nan x)
  | BigInt z => negb (Z.eqb z 0)
  | String s => string_truthy s
  end.

(** [a === b]: same type and same value; [NaN] differs from itself and the
    two zeros are equal, which is what the float comparison gives. *)
Definition strict_eq (a b : value) : bool :=
  match a, b with
  | Undefined, Undefined => true
  | Null, Null => true
  | Boolean x, Boolean y => Bool.eqb x y
  | Number x, Number y => PrimFloat.eqb x y
  | BigInt x, BigInt y => Z.eqb x y
  | String x, String y => String.eqb x y
  | _, _ => false
  end.

(** ToString, with the formatting of doubles left to the engine. *)
Definition to_string (number_to_string : float -> string) (v : value) : string :=
  match v with
  | Undefined => "undefined"
  | Null => "null"
  | Boolean true => "true"
  | Boolean false => "false"
  | Number x => number_to_string x
  | BigInt z => NilZero.string_of_int (Z.to_int z)
  | String s => s
  end.

(** [a || b] where each side is a string or [undefined] (None). *)
Definition or_else (a b : option string) : option string :=
  match a with
  | Some s => if string_truthy s then Some s else b
  | None => b
  end.

(** [a || d] where [a] is a string or [undefined] and [d] is a string. *)
Definition or_default (a : option string) (d : string) : string :=
  match a with
  | Some s => if string_truthy s then s else d
  | None => d
  end.

End JS.

(** ** Exceptions and completions *)

(** What a [catch] clause can receive: a thrown primitive, or an error object
    ([Error], [TypeError], [DOMException]) with its [name] and its [message].
    The exceptions of this script all come from the platform (the Clipboard
    API and the DOM), whose error objects carry a string as [message],
    possibly empty; [None] stands for an object without the property. *)
Inductive thrown : Type :=
| ThrownValue (v : JS.value)
| ThrownError (name : string) (message : option string).

(** [err] in a boolean position. *)
Definition thrown_truthy (err : thrown) : bool :=
  match err with
  | ThrownValue v => JS.to_boolean v
  | ThrownError _ _ => true
  end.

(** [err.message] for a truthy [err]; [None] is [undefined]. *)
Definition thrown_message (err : thrown) : option string :=
  match err with
  | ThrownValue _ => None
  | ThrownError _ m => m
  end.

(** How an evaluation ends: normally with a value, or by throwing. *)
Inductive completion (A : Type) : Type :=
| Normal (a : A)
| Throw (err : thrown).
Arguments Normal {A} a.
Arguments Throw {A} err.

(** ** The document and the host *)

(** A DOM element, with the properties the script reads or writes. *)
Record element : Type := {
  node_id : nat;
  tagName : string;
  value : string;
  textContent : string;
  innerText : option string;
  style : list (string * string)
}.

(** The host calls the script makes, recorded in call order. *)
Inductive event : Type :=
| EvWriteText (text : JS.value)
| EvCreateElement (tag : string)
| EvAppendChild (id : nat)
| EvFocus (id : nat)
| EvSelect (id : nat)
| EvExecCommand (command : string)
| EvRemoveChild (id : nat)
| EvConsoleWarn (msg : string) (err : thrown)
| EvConsoleError (msg : string) (err : thrown)
| EvPreventDefault
| EvSetTimeout (label : string) (delay : nat).

(** The page as the script sees it: the children of [document.body], the
    status line ([statusEl.textContent], [statusEl.style.color]), the label of
    the copy-all button, and the host calls made so far. *)
Record world : Type := {
  body : list element;
  status_text : string;
  status_color : string;
  copyAll_label : string;
  trace : list event
}.

(** How a promise settles. *)
Inductive settled : Type :=
| Resolved
| Rejected (reason : thrown).

(** [navigator.clipboard], whose [writeText] may not be a function. *)
Record clipboard : Type := {
  writeText : option (JS.value -> settled)
}.

(** The browser's side of every host call.  Each DOM call of the fallback is
    made at most once per [copyText], so one answer per call is general.
    [removeChild] is not here: it is decided by the document itself. *)
Record host : Type := {
  navigator_clipboard : option clipboard;
  number_to_string : float -> string;
  querySelector : string -> completion (option element);
  createElement_raises : option thrown;
  appendChild_raises : option thrown;
  focus_raises : option thrown;
  select_raises : option thrown;
  execCommand : string -> completion bool
}.

(** ** The monad the script runs in *)

Definition M (A : Type) : Type := world -> completion A * world.

Definition ret {A} (a : A) : M A := fun w => (Normal a, w).

Definition raise {A} (err : thrown) : M A := fun w => (Throw err, w).

Definition bind {A B} (m : M A) (k : A -> M B) : M B :=
  fun w =>
    match m w with
    | (Normal a, w') => k a w'
    | (Throw err, w') => (Throw err, w')
    end.

(** [try { m } catch (err) { handler err }] *)
Definition try_catch {A} (m : M A) (handler : thrown -> M A) : M A :=
  fun w =>
    match m w with
    | (Normal a, w') => (Normal a, w')
    | (Throw err, w') => handler err w'
    end.

Definition lift {A} (c : completion A) : M A := fun w => (c, w).

Declare Scope js_scope.
Delimit Scope js_scope with js.
Notation "x <- m ;; k" := (bind m (fun x => k))
  (at level 61, m at next level, right associativity) : js_scope.
Notation "m ;; k" := (bind m (fun _ => k))
  (at level 61, right associativity) : js_scope.
Local Open Scope js_scope.

Definition record_event (ev : event) (w : world) : world :=
  {| body := body w;
     status_text := status_text w;
     status_color := status_color w;
     copyAll_label := copyAll_label w;
     trace := trace w ++ [ev] |}.

Definition set_body (b : list element) (w : world) : world :=
  {| body := b;
     status_text := status_text w;
     status_color := status_color w;
     copyAll_label := copyAll_label w;
     trace := trace w |}.

Definition emit (ev : event) : M unit := fun w => (Normal tt, record_event ev w).

(** A host call that returns nothing: recorded, then it raises or not. *)
Definition host_call (ev : event) (raises : option thrown) : M unit :=
  emit ev ;;
  match raises with
  | Some err => raise err
  | None => ret tt
  end.

(** ** Host calls of the fallback *)

(** ASCII upper-casing, for the [tagName] of an HTML element. *)
Definition upper_ascii (c : ascii) : ascii :=
  let n := nat_of_ascii c in
  if (97 <=? n)%nat && (n <=? 122)%nat then ascii_of_nat (n - 32) else c.

Fixpoint upper (s : string) : string :=
  match s with
  | EmptyString => EmptyString
  | String c rest => String (upper_ascii c) (upper rest)
  end.

(** An identity no child of [document.body] has. *)
Definition fresh_id (w : world) : nat := S (list_max (map node_id (body w))).

(** [document.createElement(tag)]: a new, detached, empty element. *)
Definition createElement (h : host) (tag : string) : M element :=
  fun w =>
    let w1 := record_event (EvCreateElement tag) w in
    match createElement_raises h with
    | Some err => (Throw err, w1)
    | None =>
        (Normal {| node_id := fresh_id w;
                   tagName := upper tag;
                   value := "";
                   textContent := "";
                   innerText := Some "";
                   style := [] |}, w1)
    end.

(** [el.value = text] on an element the script still holds alone. *)
Definition set_value (s : string) (el : element) : element :=
  {| node_id := node_id el;
     tagName := tagName el;
     value := s;
     textContent := textContent el;
     innerText := innerText el;
     style := style el |}.

(** [el.style[prop] = v] *)
Definition set_style (prop v : string) (el : element) : element :=
  {| node_id := node_id el;
     tagName := tagName el;
     value := value el;
     textContent := textContent el;
     innerText := innerText el;
     style := filter (fun p => negb (String.eqb (fst p) prop)) (style el) ++ [(prop, v)] |}.

(** [document.body.appendChild(el)] *)
Definition appendChild (h : host) (el : element) : M unit :=
  host_call (EvAppendChild (node_id el)) (appendChild_raises h) ;;
  fun w => (Normal tt, set_body (body w ++ [el]) w).

Definition focus (h : host) (el : element) : M unit :=
  host_call (EvFocus (node_id el)) (focus_raises h).

Definition select (h : host) (el : element) : M unit :=
  host_call (EvSelect (node_id el)) (select_raises h).

(** [document.execCommand(command)] *)
Definition exec_command (h : host) (command : string) : M bool :=
  emit (EvExecCommand command) ;;
  lift (execCommand h command).

Definition same_node (a b : element) : bool := Nat.eqb (node_id a) (node_id b).

Definition NotFoundError : thrown :=
  ThrownError "NotFoundError"
    (Some "Failed to execute 'removeChild' on 'Node': The node to be removed is not a child of this node.").

(** [document.body.removeChild(el)]: the DOM raises [NotFoundError] when [el]
    is not a child, and takes it out otherwise. *)
Definition removeChild (el : element) : M unit :=
  emit (EvRemoveChild (node_id el)) ;;
  fun w =>
    if existsb (same_node el) (body w)
    then (Normal tt, set_body (filter (fun c => negb (same_node el c)) (body w)) w)
    else (Throw NotFoundError, w).

(** ** [readTextFromTarget] (script.js, lines 10-17) *)

(** The argument: a selector string, an element, or nothing ([null] or
    [undefined]). *)
Inductive target : Type :=
| TSelector (selector : string)
| TElement (el : element)
| TNothing.

(** Line 11: a string goes through [document.querySelector]. *)
Definition resolve (h : host) (selectorOrEl : target) : completion (option element) :=
  match selectorOrEl with
  | TSelector selector => querySelector h selector
  | TElement el => Normal (Some el)
  | TNothing => Normal None
  end.

Definition readTextFromTarget (h : host) (selectorOrEl : target) : completion string :=
  match resolve h selectorOrEl with
  | Throw err => Throw err
  | Normal None => Normal ""
  | Normal (Some el) =>
      if String.eqb (tagName el) "INPUT" || String.eqb (tagName el) "TEXTAREA"
      then Normal (value el)
      else Normal (JS.or_default (JS.or_else (Some (textContent el)) (innerText el)) "")
  end.

(** ** [copyText] (script.js, lines 20-56) *)

(** The object the function resolves to: [{ ok: true }] or
    [{ ok: false, message }]. *)
Record CopyOutcome : Type := {
  ok : bool;
  message : option string
}.

Definition Success : CopyOutcome := {| ok := true; message := None |}.

Definition Failure (msg : string) : CopyOutcome := {| ok := false; message := Some msg |}.

(** Line 21: [!text && text !== ''] *)
Definition nothing_to_copy (text : JS.value) : bool :=
  negb (JS.to_boolean text) && negb (JS.strict_eq text (JS.String "")).

(** Line 26: [navigator.clipboard && typeof navigator.clipboard.writeText
    === 'function'], giving the function when the test passes. *)
Definition clipboard_writeText (h : host) : option (JS.value -> settled) :=
  match navigator_clipboard h with
  | Some c => writeText c
  | None => None
  end.

(** [await navigator.clipboard.writeText(text)]: the caller resumes when the
    promise settles, and a rejection is thrown at the [await]. *)
Definition await_writeText (write : JS.value -> settled) (text : JS.value) : M unit :=
  emit (EvWriteText text) ;;
  match write text with
  | Resolved => ret tt
  | Rejected reason => raise reason
  end.

(** The text of the warning of line 32. *)
Definition warning : string := "Clipboard API failed, falling back to legacy method".

(** Lines 26-34.  [Some outcome] is the [return] inside the [try]; [None] is
    control reaching line 36. *)
Definition primary (h : host) (text : JS.value) : M (option CopyOutcome) :=
  match clipboard_writeText h with
  | Some write =>
      try_catch
        (await_writeText write text ;;
         ret (Some Success))
        (fun err =>
           emit (EvConsoleWarn warning err) ;;
           ret None)
  | None => ret None
  end.

(** Line 54: [err && err.message ? err.message : 'Copy failed'] *)
Definition failure_message (err : thrown) : string :=
  if thrown_truthy err
  then match thrown_message err with
       | Some m => if JS.string_truthy m then m else "Copy failed"
       | None => "Copy failed"
       end
  else "Copy failed".

(** Lines 38-43: the textarea as it is when it is appended. *)
Definition prepare_textarea (h : host) (text : JS.value) (ta : element) : element :=
  set_style "top" "0"
    (set_style "left" "-9999px"
       (set_style "position" "fixed"
          (set_value (JS.to_string (number_to_string h) text) ta))).

(** Lines 38-51, the body of the [try]. *)
Definition fallback_attempt (h : host) (text : JS.value) : M CopyOutcome :=
  created <- createElement h "textarea" ;;
  let ta := prepare_textarea h text created in
  appendChild h ta ;;
  focus h ta ;;
  select h ta ;;
  successful <- exec_command h "copy" ;;
  removeChild ta ;;
  if (successful : bool) then ret Success
  else ret (Failure "Copy command unsuccessful").

(** Lines 37-55. *)
Definition fallback (h : host) (text : JS.value) : M CopyOutcome :=
  try_catch
    (fallback_attempt h text)
    (fun err =>
       emit (EvConsoleError "Fallback copy failed" err) ;;
       ret (Failure (failure_message err))).

(** The promise [copyText(text)] returns settles with this completion. *)
Definition copyText (h : host) (text : JS.value) : M CopyOutcome :=
  if nothing_to_copy text
  then ret (Failure "Nothing to copy")
  else
    early <- primary h text ;;
    match early with
    | Some outcome => ret outcome
    | None => fallback h text
    end.

(** ** The copy-all click handler (script.js, lines 59-62 and 100-128) *)

Definition LF : string := String (ascii_of_nat 10) EmptyString.

(** [showStatus(msg, success)] *)
Definition showStatus (msg : string) (success : bool) : M unit :=
  fun w =>
    (Normal tt,
     {| body := body w;
        status_text := msg;
        status_color := if success then "" else "#ffbaba";
        copyAll_label := copyAll_label w;
        trace := trace w |}).

(** [copyAllBtn.textContent = label] *)
Definition set_copyAll_label (label : string) : M unit :=
  fun w =>
    (Normal tt,
     {| body := body w;
        status_text := status_text w;
        status_color := status_color w;
        copyAll_label := label;
        trace := trace w |}).

(** [parts.push(x)] *)
Definition push (parts : list string) (x : string) : list string := parts ++ [x].

(** Lines 102 and 108-111. *)
Definition copyAll_parts (shortText email message code : string) : list string :=
  let parts := [] in
  let parts := if JS.string_truthy shortText then push parts shortText else parts in
  let parts := if JS.string_truthy email then push parts email else parts in
  let parts := if JS.string_truthy message then push parts message else parts in
  let parts := if JS.string_truthy code then push parts ("Code:" ++ LF ++ code) else parts in
  parts.

(** [parts.join(sep)] *)
Fixpoint join (sep : string) (parts : list string) : string :=
  match parts with
  | [] => ""
  | x :: rest =>
      match rest with
      | [] => x
      | _ :: _ => x ++ sep ++ join sep rest
      end
  end.

(** Line 113. *)
Definition copyAll_combined (shortText email message code : string) : string :=
  join (LF ++ LF) (copyAll_parts shortText email message code).

(** Lines 120-127. *)
Definition copyAll_report (res : CopyOutcome) : M unit :=
  if ok res
  then
    showStatus "All fields copied to clipboard." true ;;
    set_copyAll_label "Copied!" ;;
    emit (EvSetTimeout "Copy All Fields" 1200)
  else
    showStatus ("Copy failed: " ++ JS.or_default (message res) "unknown error") false.

(** Lines 114-127, once the four texts are read. *)
Definition copyAll_send (h : host) (combined : string) : M unit :=
  if negb (JS.string_truthy combined)
  then showStatus "Nothing to copy." false
  else
    res <- copyText h (JS.String combined) ;;
    copyAll_report res.

Definition copyAll_click (h : host) : M unit :=
  emit EvPreventDefault ;;
  shortText <- lift (readTextFromTarget h (TSelector "#shortText")) ;;
  email <- lift (readTextFromTarget h (TSelector "#email")) ;;
  message <- lift (readTextFromTarget h (TSelector "#message")) ;;
  code <- lift (readTextFromTarget h (TSelector "#codeBlock")) ;;
  copyAll_send h (copyAll_combined shortText email message code).

(** ** Sample hosts and pages *)

Definition empty_page : world :=
  {| body := []; status_text := ""; status_color := ""; copyAll_label := "Copy All Fields"; trace := [] |}.

(** A browser without the Clipboard API in which every DOM call works and
    the legacy command answers [answer]. *)
Definition legacy_host (answer : completion bool) : host :=
  {| navigator_clipboard := None;
     number_to_string := fun _ => "0";
     querySelector := fun _ => Normal None;
     createElement_raises := None;
     appendChild_raises := None;
     focus_raises := None;
     select_raises := None;
     execCommand := fun _ => answer |}.

(** The same browser with a Clipboard API that settles as [s]. *)
Definition modern_host (s : settled) (answer : completion bool) : host :=
  {| navigator_clipboard := Some {| writeText := Some (fun _ => s) |};
     number_to_string := fun _ => "0";
     querySelector := fun _ => Normal None;
     createElement_raises := None;
     appendChild_raises := None;
     focus_raises := None;
     select_raises := None;
     execCommand := fun _ => answer |}.

(** A page with the four fields of the form; two of them are empty. *)
Definition form_field (id : nat) (tag v text : string) : element :=
  {| node_id := id; tagName := tag; value := v; textContent := text;
     innerText := Some text; style := [] |}.

Definition form_host : host :=
  {| navigator_clipboard := None;
     number_to_string := fun _ => "0";
     querySelector := fun selector =>
       if String.eqb selector "#shortText" then Normal (Some (form_field 1 "INPUT" "Hi" ""))
       else if String.eqb selector "#email" then Normal (Some (form_field 2 "INPUT" "" ""))
       else if String.eqb selector "#message" then Normal (Some (form_field 3 "TEXTAREA" "" ""))
       else if String.eqb selector "#codeBlock" then Normal (Some (form_field 4 "PRE" "" "x = 1"))
       else Normal None;
     createElement_raises := None;
     appendChild_raises := None;
     focus_raises := None;
     select_raises := None;
     execCommand := fun _ => Normal true |}.

Definition not_a_function : thrown :=
  ThrownError "TypeError" (Some "document.execCommand is not a function").

(** ** Paths through [copyText] *)

(** Control reaches line 36: the input passed line 21, and the Clipboard API
    is missing or its promise rejected. *)
Definition reaches_fallback (h : host) (text : JS.value) : Prop :=
  nothing_to_copy text = false /\
  match clipboard_writeText h with
  | None => True
  | Some write => exists reason, write text = Rejected reason
  end.

(** An exception [err] leaves the [try] block of the fallback: it is raised by
    the first host call that fails, in the order of lines 38-48. *)
Inductive fallback_raises (h : host) : thrown -> Prop :=
| raises_createElement err :
    createElement_raises h = Some err ->
    fallback_raises h err
| raises_appendChild err :
    createElement_raises h = None ->
    appendChild_raises h = Some err ->
    fallback_raises h err
| raises_focus err :
    createElement_raises h = None ->
    appendChild_raises h = None ->
    focus_raises h = Some err ->
    fallback_raises h err
| raises_select err :
    createElement_raises h = None ->
    appendChild_raises h = None ->
    focus_raises h = None ->
    select_raises h = Some err ->
    fallback_raises h err
| raises_execCommand err :
    createElement_raises h = None ->
    appendChild_raises h = None ->
    focus_raises h = None ->
    select_raises h = None ->
    execCommand h "copy" = Throw err ->
    fallback_raises h err.

(** The exception leaves the [try] block after the textarea was appended. *)
Inductive raises_after_append (h : host) : thrown -> Prop :=
| after_append_focus err :
    createElement_raises h = None ->
    appendChild_raises h = None ->
    focus_raises h = Some err ->
    raises_after_append h err
| after_append_select err :
    createElement_raises h = None ->
    appendChild_raises h = None ->
    focus_raises h = None ->
    select_raises h = Some err ->
    raises_after_append h err
| after_append_execCommand err :
    createElement_raises h = None ->
    appendChild_raises h = None ->
    focus_raises h = None ->
    select_raises h = None ->
    execCommand h "copy" = Throw err ->
    raises_after_append h err.

(** The legacy command is reached and returns [successful] without raising. *)
Definition command_returns (h : host) (successful : bool) : Prop :=
  createElement_raises h = None /\
  appendChild_raises h = None /\
  focus_raises h = None /\
  select_raises h = None /\
  execCommand h "copy" = Normal successful.

(** The textarea of a call that starts in [w], as it is appended. *)
Definition temporary_textarea (h : host) (text : JS.value) (w : world) : element :=
  prepare_textarea h text
    {| node_id := fresh_id w;
       tagName := "TEXTAREA";
       value := "";
       textContent := "";
       innerText := Some "";
       style := [] |}.

(** ** The combined text, as the specification words it *)

Inductive field : Type := ShortText | Email | Message | Code.

(** The four sources in their fixed order, each with its extracted text. *)
Definition spec_sources (shortText email message code : string) : list (field * string) :=
  [(ShortText, shortText); (Email, email); (Message, message); (Code, code)].

Definition spec_nonempty (source : field * string) : bool :=
  negb (String.eqb (snd source) "").

(** The code source carries the prefix, the others stand as they are. *)
Definition spec_render (source : field * string) : string :=
  match fst source with
  | Code => "Code:" ++ LF ++ snd source
  | _ => snd source
  end.

Definition spec_combined (shortText email message code : string) : string :=
  String.concat (LF ++ LF)
    (map spec_render (filter spec_nonempty (spec_sources shortText email message code))).

(** A page whose selector lookup rejects the selector ["#"]. *)
Definition SyntaxError : thrown :=
  ThrownError "SyntaxError"
    (Some "Failed to execute 'querySelector' on 'Document': '#' is not a valid selector.").

Definition strict_host : host :=
  {| navigator_clipboard := None;
     number_to_string := fun _ => "0";
     querySelector := fun selector =>
       if String.eqb selector "#" then Throw SyntaxError else Normal None;
     createElement_raises := None;
     appendChild_raises := None;
     focus_raises := None;
     select_raises := None;
     execCommand := fun _ => Normal true |}.

(** The same browser with another [navigator.clipboard]. *)
Definition with_clipboard (c : option clipboard) (h : host) : host :=
  {| navigator_clipboard := c;
     number_to_string := number_to_string h;
     querySelector := querySelector h;
     createElement_raises := createElement_raises h;
     appendChild_raises := appendChild_raises h;
     focus_raises := focus_raises h;
     select_raises := select_raises h;
     execCommand := execCommand h |}.

(** ** The copy buttons (script.js, lines 65-97) *)

(** A button of class [copy-btn]: its label, its class list and its
    [data-copy-target] attribute ([None] when the attribute is missing). *)
Record button : Type := {
  btn_textContent : string;
  btn_classList : list string;
  btn_copyTarget : option string
}.

(** [classList.add(token)]: the list is an ordered set. *)
Definition classList_add (token : string) (classes : list string) : list string :=
  if existsb (String.eqb token) classes then classes else (classes ++ [token])%list.

(** [classList.remove(token)] *)
Definition classList_remove (token : string) (classes : list string) : list string :=
  filter (fun t => negb (String.eqb token t)) classes.

(** Lines 66-68 and the [setTimeout] call of line 69: the button as it is
    shown, and the timer, recorded with the label it will put back. *)
Definition indicateButtonCopied (btn : button) : M button :=
  let original := btn_textContent btn in
  let btn :=
    {| btn_textContent := btn_textContent btn;
       btn_classList := classList_add "copied" (btn_classList btn);
       btn_copyTarget := btn_copyTarget btn |} in
  let btn :=
    {| btn_textContent := "Copied!";
       btn_classList := btn_classList btn;
       btn_copyTarget := btn_copyTarget btn |} in
  emit (EvSetTimeout original 1200) ;;
  ret btn.

(** Lines 70-71: what the timer does to the button when it fires. *)
Definition indicateButtonCopied_timeout (original : string) (btn : button) : button :=
  {| btn_textContent := original;
     btn_classList := classList_remove "copied" (btn_classList btn);
     btn_copyTarget := btn_copyTarget btn |}.

(** Lines 90-95. *)
Definition copyButton_report (btn : button) (res : CopyOutcome) : M button :=
  if ok res
  then
    shown <- indicateButtonCopied btn ;;
    showStatus "Copied to clipboard." true ;;
    ret shown
  else
    showStatus ("Copy failed: " ++ JS.or_default (message res) "unknown error") false ;;
    ret btn.

(** Lines 77-96: the click handler of one button; it returns the button as
    the click leaves it. *)
Definition copyButton_click (h : host) (btn : button) : M button :=
  emit EvPreventDefault ;;
  match btn_copyTarget btn with
  | None =>
      showStatus "No target found to copy." false ;;
      ret btn
  | Some target =>
      if negb (JS.string_truthy target)
      then
        showStatus "No target found to copy." false ;;
        ret btn
      else
        text <- lift (readTextFromTarget h (TSelector target)) ;;
        if negb (JS.string_truthy text)
        then
          showStatus "Nothing to copy." false ;;
          ret btn
        else
          res <- copyText h (JS.String text) ;;
          copyButton_report btn res
  end.

(** The timers a trace has set for a button, fired in the order they were
    set (they all have the same delay). *)
Definition fire_timer (btn : button) (ev : event) : button :=
  match ev with
  | EvSetTimeout original _ => indicateButtonCopied_timeout original btn
  | _ => btn
  end.

Definition fire_timers (evs : list event) (btn : button) : button :=
  fold_left fire_timer evs btn.

(** ** The support notice (script.js, lines 141-145) *)

(** Line 142: [!navigator.clipboard || typeof navigator.clipboard.writeText
    !== 'function'] *)
Definition clipboard_unsupported (h : host) : bool :=
  match navigator_clipboard h with
  | None => true
  | Some c =>
      match writeText c with
      | Some _ => false
      | None => true
      end
  end.

(** The text of line 143, in UTF-8. *)
Definition support_notice : string :=
  "Clipboard API unavailable — using fallback copy method.".

(** [checkSupport()], run once when the script loads. *)
Definition checkSupport (h : host) : M unit :=
  if clipboard_unsupported h
  then showStatus support_notice true
  else ret tt.

(** The events of a trace that are console output. *)
Definition is_console (ev : event) : bool :=
  match ev with
  | EvConsoleWarn _ _ => true
  | EvConsoleError _ _ => true
  | _ => false
  end.

(** The events with which a copy attempt begins: the call of [writeText],
    or the creation of the textarea. *)
Definition is_copy_attempt (ev : event) : bool :=
  match ev with
  | EvWriteText _ => true
  | EvCreateElement _ => true
  | _ => false
  end.

(** The events of a trace that are calls of [removeChild]. *)
Definition is_removeChild (ev : event) : bool :=
  match ev with
  | EvRemoveChild _ => true
  | _ => false
  end.

(** A page on which every selector lookup raises. *)
Definition rejecting_host : host :=
  {| navigator_clipboard := None;
     number_to_string := fun _ => "0";
     querySelector := fun _ => Throw SyntaxError;
     createElement_raises := None;
     appendChild_raises := None;
     focus_raises := None;
     select_raises := None;
     execCommand := fun _ => Normal true |}.

(** The page of [form_host] in a browser without the Clipboard API whose
    legacy command answers [false]. *)
Definition legacy_form_host : host :=
  {| navigator_clipboard := None;
     number_to_string := number_to_string form_host;
     querySelector := querySelector form_host;
     createElement_raises := None;
     appendChild_raises := None;
     focus_raises := None;
     select_raises := None;
     execCommand := fun _ => Normal false |}.


(** A button with a label, its class and a target. *)
Definition sample_button (target : option string) : button :=
  {| btn_textContent := "Copy"; btn_classList := ["copy-btn"]; btn_copyTarget := target |}.

(** ** Proof automation *)

Arguments upper : simpl never.
Arguments prepare_textarea : simpl never.
Arguments same_node : simpl never.
Arguments fresh_id : simpl never.
Arguments record_event : simpl never.
Arguments set_body : simpl never.

(** Unfolds one run of the fallback down to the host's answers. *)
Ltac run_fallback :=
  unfold fallback, try_catch, fallback_attempt, createElement, appendChild,
    focus, select, host_call, exec_command, removeChild, bind, emit, lift, ret, raise.

(** Normalises what is known of a page after a sequence of host calls. *)
Create Rewrite HintDb page.
Ltac page := autorewrite with page; rewrite <- ?app_assoc; cbn [app].

(** The page on which the fallback starts, read off an equation
    [_ = fallback h text w0]. *)
Ltac fallback_page E k :=
  match type of E with
  | _ = fallback _ _ ?w0 => k w0
  end.

(** * Properties *)

(** ** Strings and truthiness *)

(** The falsy values of the language, and some truthy ones. *)
Lemma falsy_values :
  map JS.to_boolean
    [JS.Undefined; JS.Null; JS.Boolean false; JS.Number 0%float; JS.Number (-0)%float;
     JS.Number nan; JS.BigInt 0; JS.String ""]
  = [false; false; false; false; false; false; false; false] /\
  map JS.to_boolean
    [JS.Boolean true; JS.Number 1%float; JS.Number infinity; JS.BigInt (-3); JS.String "0";
     JS.String " "]
  = [true; true; true; true; true; true].
Proof. split; reflexivity. Qed.

Lemma string_truthy_false (s : string) : JS.string_truthy s = false <-> s = "".
Proof.
  destruct s; simpl; split; intro H; try reflexivity; discriminate.
Qed.

Lemma string_truthy_true (s : string) : JS.string_truthy s = true <-> s <> "".
Proof.
  destruct s; simpl; split; intro H; try reflexivity; try discriminate.
  now contradiction H.
Qed.

Lemma falsy_string_is_empty (text : JS.value) :
  JS.to_boolean text = false ->
  nothing_to_copy text = false ->
  text = JS.String "".
Proof.
  unfold nothing_to_copy.
  intros Hfalsy Hpass. rewrite Hfalsy in Hpass. simpl in Hpass.
  destruct text; simpl in Hpass; try discriminate.
  simpl in Hfalsy. apply string_truthy_false in Hfalsy. now subst.
Qed.

Lemma falsy_not_empty_rejected (text : JS.value) :
  JS.to_boolean text = false ->
  text <> JS.String "" ->
  nothing_to_copy text = true.
Proof.
  intros Hfalsy Hne.
  destruct (nothing_to_copy text) eqn:E; [reflexivity|].
  contradiction Hne. now apply falsy_string_is_empty.
Qed.

Lemma string_passes (s : string) : nothing_to_copy (JS.String s) = false.
Proof.
  unfold nothing_to_copy. destruct s; reflexivity.
Qed.

Lemma failure_message_nonempty (err : thrown) : failure_message err <> "".
Proof.
  unfold failure_message.
  destruct (thrown_truthy err); [|discriminate].
  destruct (thrown_message err) as [m|]; [|discriminate].
  destruct (JS.string_truthy m) eqn:E; [|discriminate].
  now apply string_truthy_true.
Qed.

(** ** The temporary element comes out again *)

Lemma body_below_fresh (w : world) (c : element) :
  In c (body w) -> node_id c < fresh_id w.
Proof.
  intro Hin. unfold fresh_id.
  assert (Hall : Forall (fun k => k <= list_max (map node_id (body w))) (map node_id (body w)))
    by (apply list_max_le; lia).
  rewrite Forall_forall in Hall.
  specialize (Hall (node_id c) (in_map node_id _ _ Hin)). lia.
Qed.

Lemma remove_fresh (w : world) (ta : element) :
  node_id ta = fresh_id w ->
  filter (fun c => negb (same_node ta c)) (body w ++ [ta]) = body w.
Proof.
  intro Hid. rewrite filter_app. simpl.
  unfold same_node at 2. rewrite Nat.eqb_refl. simpl. rewrite app_nil_r.
  apply forallb_filter_id. apply forallb_forall. intros c Hin.
  apply body_below_fresh in Hin. unfold same_node.
  destruct (Nat.eqb_spec (node_id ta) (node_id c)); [lia | reflexivity].
Qed.

Lemma appended_is_child (l : list element) (ta : element) :
  existsb (same_node ta) (l ++ [ta]) = true.
Proof.
  rewrite existsb_app. simpl. unfold same_node at 2.
  rewrite Nat.eqb_refl. now rewrite orb_true_r.
Qed.

(** ** Running the fallback *)

Lemma textarea_is_fresh (h : host) (text : JS.value) (w : world) :
  node_id (temporary_textarea h text w) = fresh_id w.
Proof. reflexivity. Qed.

Lemma created_textarea (h : host) (text : JS.value) (w : world) :
  prepare_textarea h text
    {| node_id := fresh_id w; tagName := upper "textarea"; value := "";
       textContent := ""; innerText := Some ""; style := [] |}
  = temporary_textarea h text w.
Proof. reflexivity. Qed.

Lemma body_record_event (ev : event) (w : world) : body (record_event ev w) = body w.
Proof. reflexivity. Qed.

Lemma body_set_body (b : list element) (w : world) : body (set_body b w) = b.
Proof. reflexivity. Qed.

Lemma trace_record_event (ev : event) (w : world) :
  trace (record_event ev w) = (trace w ++ [ev])%list.
Proof. reflexivity. Qed.

Lemma trace_set_body (b : list element) (w : world) : trace (set_body b w) = trace w.
Proof. reflexivity. Qed.

#[local] Hint Rewrite body_record_event body_set_body trace_record_event trace_set_body
  textarea_is_fresh : page.

Lemma fallback_when_command_returns (h : host) (text : JS.value) (w : world) (successful : bool) :
  command_returns h successful ->
  exists w',
    fallback h text w =
      (Normal (if successful then Success else Failure "Copy command unsuccessful"), w') /\
    body w' = body w /\
    trace w' = (trace w ++
      [EvCreateElement "textarea"; EvAppendChild (fresh_id w); EvFocus (fresh_id w);
       EvSelect (fresh_id w); EvExecCommand "copy"; EvRemoveChild (fresh_id w)])%list.
Proof.
  intros (Hc & Ha & Hf & Hs & He).
  run_fallback. rewrite Hc, Ha, Hf, Hs, He. cbn.
  rewrite created_textarea. autorewrite with page.
  rewrite appended_is_child, remove_fresh by apply textarea_is_fresh.
  eexists. split; [destruct successful; reflexivity|].
  split; page; reflexivity.
Qed.

(** When a host call raises, the [catch] clause reports it; the textarea is
    still a child of the body exactly when it had been appended. *)
Lemma fallback_when_raises (h : host) (text : JS.value) (w : world) (err : thrown) :
  fallback_raises h err ->
  exists w',
    fallback h text w = (Normal (Failure (failure_message err)), w') /\
    (body w' = body w \/ body w' = (body w ++ [temporary_textarea h text w])%list).
Proof.
  intros H; destruct H as
    [err Hc | err Hc Ha | err Hc Ha Hf | err Hc Ha Hf Hs | err Hc Ha Hf Hs He];
    run_fallback; rewrite ?Hc, ?Ha, ?Hf, ?Hs, ?He; cbn;
    rewrite ?created_textarea; eexists; (split; [reflexivity|]);
    autorewrite with page; auto.
Qed.

Lemma fallback_leaks_after_append (h : host) (text : JS.value) (w : world) (err : thrown) :
  raises_after_append h err ->
  exists w',
    fallback h text w = (Normal (Failure (failure_message err)), w') /\
    body w' = (body w ++ [temporary_textarea h text w])%list.
Proof.
  intros H; destruct H as [err Hc Ha Hf | err Hc Ha Hf Hs | err Hc Ha Hf Hs He];
    run_fallback; rewrite ?Hc, ?Ha, ?Hf, ?Hs, ?He; cbn;
    rewrite ?created_textarea; eexists; (split; [reflexivity|]);
    autorewrite with page; auto.
Qed.

(** Every fallback run is one of the two: a host call raises, or the legacy
    command returns. *)
Lemma fallback_cases (h : host) :
  (exists err, fallback_raises h err) \/ (exists successful, command_returns h successful).
Proof.
  destruct (createElement_raises h) as [e|] eqn:Hc;
    [left; exists e; now apply raises_createElement|].
  destruct (appendChild_raises h) as [e|] eqn:Ha;
    [left; exists e; now apply raises_appendChild|].
  destruct (focus_raises h) as [e|] eqn:Hf;
    [left; exists e; now apply raises_focus|].
  destruct (select_raises h) as [e|] eqn:Hs;
    [left; exists e; now apply raises_select|].
  destruct (execCommand h "copy") as [b|e] eqn:He;
    [right; exists b; repeat split; assumption
    |left; exists e; now apply raises_execCommand].
Qed.

(** The outcome of the fallback does not depend on the page it starts from. *)
Lemma fallback_outcome_any_page (h : host) (text : JS.value) (w1 w2 : world) :
  fst (fallback h text w1) = fst (fallback h text w2).
Proof.
  destruct (fallback_cases h) as [[err H] | [b H]].
  - destruct (fallback_when_raises h text w1 err H) as (w1' & E1 & _).
    destruct (fallback_when_raises h text w2 err H) as (w2' & E2 & _).
    now rewrite E1, E2.
  - destruct (fallback_when_command_returns h text w1 b H) as (w1' & E1 & _).
    destruct (fallback_when_command_returns h text w2 b H) as (w2' & E2 & _).
    now rewrite E1, E2.
Qed.

(** ** The primary path *)

Lemma primary_absent (h : host) (text : JS.value) (w : world) :
  clipboard_writeText h = None ->
  primary h text w = (Normal None, w).
Proof.
  intro H. unfold primary. now rewrite H.
Qed.

Lemma primary_resolved (h : host) (text : JS.value) (w : world) write :
  clipboard_writeText h = Some write ->
  write text = Resolved ->
  primary h text w = (Normal (Some Success), record_event (EvWriteText text) w).
Proof.
  intros H Hw. unfold primary, try_catch, await_writeText, bind, emit, ret.
  now rewrite H, Hw.
Qed.

Lemma primary_rejected (h : host) (text : JS.value) (w : world) write reason :
  clipboard_writeText h = Some write ->
  write text = Rejected reason ->
  primary h text w =
    (Normal None,
     record_event (EvConsoleWarn warning reason) (record_event (EvWriteText text) w)).
Proof.
  intros H Hw. unfold primary, try_catch, await_writeText, bind, emit, ret, raise.
  now rewrite H, Hw.
Qed.

(** From line 36 on, [copyText] is its fallback, started on a page with the
    same body. *)
Lemma copyText_via_fallback (h : host) (text : JS.value) (w : world) :
  reaches_fallback h text ->
  exists w0,
    copyText h text w = fallback h text w0 /\
    body w0 = body w /\
    (w0 = w \/
     exists reason,
       w0 = record_event (EvConsoleWarn warning reason) (record_event (EvWriteText text) w)).
Proof.
  intros [Hpass Hprimary]. unfold copyText, bind. rewrite Hpass.
  destruct (clipboard_writeText h) as [write|] eqn:Hc.
  - destruct Hprimary as [reason Hrej].
    rewrite (primary_rejected h text w write reason Hc Hrej).
    eexists. split; [reflexivity|]. split; [reflexivity|]. right. now exists reason.
  - rewrite (primary_absent h text w Hc).
    exists w. auto.
Qed.

(** The first host call of the fallback is the creation of the textarea. *)
Lemma fallback_begins (h : host) (text : JS.value) (w : world) :
  exists rest,
    trace (snd (fallback h text w)) = (trace w ++ EvCreateElement "textarea" :: rest)%list.
Proof.
  destruct (fallback_cases h) as [[err H] | [b H]].
  - run_fallback.
    destruct H as
      [err Hx | err Hx Ha | err Hx Ha Hf | err Hx Ha Hf Hs | err Hx Ha Hf Hs He];
      rewrite ?Hx, ?Ha, ?Hf, ?Hs, ?He; cbn; page; eexists; reflexivity.
  - destruct (fallback_when_command_returns h text w b H) as (w' & E & _ & Ht).
    rewrite E. cbn [snd]. rewrite Ht. eexists. reflexivity.
Qed.

(** A call that passes line 21 begins with one of the two copy attempts. *)
Lemma copyText_proceeds (h : host) (text : JS.value) (w : world) :
  nothing_to_copy text = false ->
  exists ev rest,
    trace (snd (copyText h text w)) = (trace w ++ ev :: rest)%list /\
    (ev = EvWriteText text \/ ev = EvCreateElement "textarea").
Proof.
  intro Hpass. unfold copyText, bind. rewrite Hpass.
  destruct (clipboard_writeText h) as [write|] eqn:Hc.
  - exists (EvWriteText text).
    destruct (write text) as [|reason] eqn:Hw.
    + rewrite (primary_resolved h text w write Hc Hw). cbn.
      exists []. split; [apply trace_record_event | now left].
    + rewrite (primary_rejected h text w write reason Hc Hw).
      destruct (fallback_begins h text
                  (record_event (EvConsoleWarn warning reason)
                     (record_event (EvWriteText text) w))) as [rest Ht].
      rewrite Ht. page. eexists. split; [reflexivity | now left].
  - rewrite (primary_absent h text w Hc).
    destruct (fallback_begins h text w) as [rest Ht].
    exists (EvCreateElement "textarea"), rest. split; [exact Ht | now right].
Qed.

(** Whatever the browser does, the promise is fulfilled, with [{ok: true}] or
    with a failure that carries a message. *)
Lemma copyText_total (h : host) (text : JS.value) (w : world) :
  exists outcome w',
    copyText h text w = (Normal outcome, w') /\
    (outcome = Success \/ exists msg, outcome = Failure msg /\ msg <> "").
Proof.
  assert (Hfallback : forall w0, exists outcome w',
             fallback h text w0 = (Normal outcome, w') /\
             (outcome = Success \/ exists msg, outcome = Failure msg /\ msg <> "")).
  { intro w0. destruct (fallback_cases h) as [[err H] | [b H]].
    - destruct (fallback_when_raises h text w0 err H) as (w' & E & _).
      exists (Failure (failure_message err)), w'. split; [assumption|].
      right. eexists. split; [reflexivity | apply failure_message_nonempty].
    - destruct (fallback_when_command_returns h text w0 b H) as (w' & E & _).
      eexists; exists w'. split; [exact E|].
      destruct b; [now left | right; eexists; split; [reflexivity | discriminate]]. }
  unfold copyText, bind.
  destruct (nothing_to_copy text) eqn:Hpass.
  - exists (Failure "Nothing to copy"), w. split; [reflexivity|].
    right. eexists. split; [reflexivity | discriminate].
  - destruct (clipboard_writeText h) as [write|] eqn:Hc.
    + destruct (write text) as [|reason] eqn:Hw.
      * rewrite (primary_resolved h text w write Hc Hw).
        exists Success. eexists. split; [reflexivity | now left].
      * rewrite (primary_rejected h text w write reason Hc Hw). apply Hfallback.
    + rewrite (primary_absent h text w Hc). apply Hfallback.
Qed.

Lemma fallback_ignores_clipboard (c : option clipboard) (h : host) (text : JS.value) (w : world) :
  fallback (with_clipboard c h) text w = fallback h text w.
Proof. reflexivity. Qed.

(** On the paths where the legacy command returns, the body is as before. *)
Lemma copyText_restores_body (h : host) (text : JS.value) (w : world) (successful : bool) :
  reaches_fallback h text ->
  command_returns h successful ->
  body (snd (copyText h text w)) = body w.
Proof.
  intros Hreach Hret.
  destruct (copyText_via_fallback h text w Hreach) as (w0 & E & Hbody & _).
  destruct (fallback_when_command_returns h text w0 successful Hret) as (w' & E' & Hb & _).
  rewrite E, E'. cbn [snd]. congruence.
Qed.

(** On the paths where a host call raises after line 44, the textarea stays. *)
Lemma copyText_leaks_after_append (h : host) (text : JS.value) (w : world) (err : thrown) :
  reaches_fallback h text ->
  raises_after_append h err ->
  exists ta,
    body (snd (copyText h text w)) = (body w ++ [ta])%list /\
    tagName ta = "TEXTAREA" /\
    ~ In ta (body w).
Proof.
  intros Hreach Hraise.
  destruct (copyText_via_fallback h text w Hreach) as (w0 & E & Hbody & _).
  destruct (fallback_leaks_after_append h text w0 err Hraise) as (w' & E' & Hb).
  exists (temporary_textarea h text w0).
  rewrite E, E'. cbn [snd]. rewrite Hb, Hbody.
  split; [reflexivity|]. split; [reflexivity|].
  intro Hin. rewrite <- Hbody in Hin. apply body_below_fresh in Hin.
  rewrite textarea_is_fresh in Hin. lia.
Qed.

(** ** The claims about [copyText] *)

(** C1: the temporary textarea is meant to leave the document on every path of
    the fallback.  It does when the legacy command returns
    ([copyText_restores_body]); it does not when the command raises: in a
    browser without the Clipboard API whose [document.execCommand] raises,
    [copyText("hi")] on an empty body resolves to a failure with the
    exception's message and leaves the textarea in the body. *)
Theorem copyText_leaves_textarea_when_command_raises :
  let h := legacy_host (Throw not_a_function) in
  let run := copyText h (JS.String "hi") empty_page in
  fst run = Normal (Failure "document.execCommand is not a function") /\
  body (snd run) = [temporary_textarea h (JS.String "hi") empty_page] /\
  body (snd run) <> body empty_page.
Proof.
  cbv zeta. split; [reflexivity|]. split; [reflexivity|].
  vm_compute. discriminate.
Qed.

(** C2: for every string [s], every page and every behaviour of the browser
    (Clipboard API absent, resolving or rejecting; every DOM call and the
    legacy command returning or raising), [copyText(s)] does not raise: it
    resolves to [{ok: true}] or to a failure whose message is a non-empty
    string. *)
Theorem copyText_never_raises (h : host) (s : string) (w : world) :
  exists outcome w',
    copyText h (JS.String s) w = (Normal outcome, w') /\
    (outcome = Success \/ exists msg, outcome = Failure msg /\ msg <> "").
Proof.
  apply copyText_total.
Qed.

(** C3: with [undefined] or [null], [copyText] resolves at once to the
    failure "Nothing to copy": the page is the one it started from, so no
    host call was made and the document is untouched.  The empty string
    passes line 21 and the call goes on to a copy attempt: its first host
    call is [writeText("")] or the creation of the textarea. *)
Theorem copyText_absent_input (h : host) (w : world) :
  copyText h JS.Undefined w = (Normal (Failure "Nothing to copy"), w) /\
  copyText h JS.Null w = (Normal (Failure "Nothing to copy"), w) /\
  nothing_to_copy (JS.String "") = false /\
  exists ev rest,
    trace (snd (copyText h (JS.String "") w)) = (trace w ++ ev :: rest)%list /\
    (ev = EvWriteText (JS.String "") \/ ev = EvCreateElement "textarea").
Proof.
  repeat split; try reflexivity.
  apply copyText_proceeds. reflexivity.
Qed.

(** C4: when the Clipboard API is there and the input passes line 21, the
    first host call is [writeText(text)].  If the promise resolves, the
    outcome is [{ok: true}] and that call is the only thing that happened: no
    element is created or appended.  If it rejects with [reason], the reason
    goes to [console.warn] and nowhere else: the fallback runs next and the
    outcome is the one the same browser gives without a Clipboard API. *)
Theorem copyText_primary_first (h : host) (text : JS.value) (w : world)
    (write : JS.value -> settled) :
  nothing_to_copy text = false ->
  clipboard_writeText h = Some write ->
  (exists rest,
     trace (snd (copyText h text w)) = (trace w ++ EvWriteText text :: rest)%list) /\
  (write text = Resolved ->
   copyText h text w = (Normal Success, record_event (EvWriteText text) w)) /\
  (forall reason,
     write text = Rejected reason ->
     fst (copyText h text w) = fst (copyText (with_clipboard None h) text w) /\
     exists rest,
       trace (snd (copyText h text w)) =
         (trace w ++ EvWriteText text :: EvConsoleWarn warning reason ::
            EvCreateElement "textarea" :: rest)%list).
Proof.
  intros Hpass Hc.
  assert (Hres : write text = Resolved ->
                 copyText h text w = (Normal Success, record_event (EvWriteText text) w)).
  { intro Hw. unfold copyText, bind. rewrite Hpass.
    now rewrite (primary_resolved h text w write Hc Hw). }
  assert (Hrej : forall reason, write text = Rejected reason ->
            fst (copyText h text w) = fst (copyText (with_clipboard None h) text w) /\
            exists rest,
              trace (snd (copyText h text w)) =
                (trace w ++ EvWriteText text :: EvConsoleWarn warning reason ::
                   EvCreateElement "textarea" :: rest)%list).
  { intros reason Hw.
    assert (E : copyText h text w =
                fallback h text (record_event (EvConsoleWarn warning reason)
                                   (record_event (EvWriteText text) w))).
    { unfold copyText, bind. rewrite Hpass.
      now rewrite (primary_rejected h text w write reason Hc Hw). }
    assert (E0 : copyText (with_clipboard None h) text w = fallback h text w).
    { unfold copyText, bind. rewrite Hpass.
      rewrite (primary_absent (with_clipboard None h) text w) by reflexivity.
      apply fallback_ignores_clipboard. }
    rewrite E, E0. split; [apply fallback_outcome_any_page|].
    destruct (fallback_begins h text
                (record_event (EvConsoleWarn warning reason)
                   (record_event (EvWriteText text) w))) as [rest Ht].
    exists rest. rewrite Ht. now page. }
  split; [|split; assumption].
  destruct (write text) as [|reason] eqn:Hw.
  - rewrite Hres by reflexivity. exists []. apply trace_record_event.
  - destruct (Hrej reason eq_refl) as [_ [rest Ht]]. rewrite Ht. eexists. reflexivity.
Qed.

Lemma copyText_primary_first_witness :
  copyText (modern_host Resolved (Normal false)) (JS.String "hi") empty_page
    = (Normal Success, record_event (EvWriteText (JS.String "hi")) empty_page) /\
  fst (copyText (modern_host (Rejected (ThrownError "NotAllowedError" (Some "denied")))
                   (Normal true)) (JS.String "hi") empty_page)
    = fst (copyText (with_clipboard None
                       (modern_host (Rejected (ThrownError "NotAllowedError" (Some "denied")))
                          (Normal true))) (JS.String "hi") empty_page).
Proof.
  split.
  - apply (copyText_primary_first (modern_host Resolved (Normal false)) (JS.String "hi")
             empty_page (fun _ => Resolved)); reflexivity.
  - exact (proj1 (proj2 (proj2
             (copyText_primary_first
                (modern_host (Rejected (ThrownError "NotAllowedError" (Some "denied")))
                   (Normal true))
                (JS.String "hi") empty_page
                (fun _ => Rejected (ThrownError "NotAllowedError" (Some "denied")))
                eq_refl eq_refl))
             (ThrownError "NotAllowedError" (Some "denied")) eq_refl)).
Defined.

(** What the [catch] clause of line 52 resolves to. *)
Lemma copyText_when_fallback_raises (h : host) (text : JS.value) (w : world) (err : thrown) :
  reaches_fallback h text ->
  fallback_raises h err ->
  exists w', copyText h text w = (Normal (Failure (failure_message err)), w').
Proof.
  intros Hreach Hraise.
  destruct (copyText_via_fallback h text w Hreach) as (w0 & E & _).
  destruct (fallback_when_raises h text w0 err Hraise) as (w' & E' & _).
  exists w'. now rewrite E.
Qed.

(** C5: when [copyText] reaches the fallback and a host call of lines 38-48
    (creating the textarea, appending it, focusing, selecting, or the legacy
    command) raises [err], the call resolves to a failure; its message is
    [err.message] when [err] has a non-empty one, and "Copy failed" when
    the message is unavailable: [err] has none, or has the empty one. *)
Theorem copyText_fallback_exception_message (h : host) (text : JS.value) (w : world)
    (err : thrown) :
  reaches_fallback h text ->
  fallback_raises h err ->
  exists outcome w',
    copyText h text w = (Normal outcome, w') /\
    ok outcome = false /\
    (forall m, thrown_message err = Some m -> m <> "" -> message outcome = Some m) /\
    (thrown_message err = None \/ thrown_message err = Some "" ->
     message outcome = Some "Copy failed").
Proof.
  intros Hreach Hraise.
  destruct (copyText_when_fallback_raises h text w err Hreach Hraise) as [w' E].
  exists (Failure (failure_message err)), w'.
  split; [exact E|]. split; [reflexivity|]. cbn [message Failure].
  unfold failure_message. split.
  - intros m Hm Hne. destruct err as [v | name msg]; cbn in Hm; [discriminate|].
    subst msg. cbn. apply string_truthy_true in Hne. now rewrite Hne.
  - intros [Hm | Hm]; rewrite Hm; now destruct (thrown_truthy err).
Qed.

Lemma copyText_fallback_exception_message_witness :
  exists outcome w',
    copyText (legacy_host (Throw not_a_function)) (JS.String "hi") empty_page
      = (Normal outcome, w') /\
    ok outcome = false /\
    (forall m, thrown_message not_a_function = Some m -> m <> "" ->
               message outcome = Some m) /\
    (thrown_message not_a_function = None \/ thrown_message not_a_function = Some "" ->
     message outcome = Some "Copy failed").
Proof.
  apply (copyText_fallback_exception_message
           (legacy_host (Throw not_a_function)) (JS.String "hi") empty_page not_a_function).
  - split; [reflexivity | exact I].
  - apply raises_execCommand; reflexivity.
Defined.

(** C6: when [copyText] reaches the fallback and the legacy command is run and
    returns without raising, the outcome is [{ok: true}] if it returned
    [true] and exactly the failure "Copy command unsuccessful" if it
    returned [false]; either way the body is the one the call started from. *)
Theorem copyText_legacy_command_result (h : host) (text : JS.value) (w : world)
    (successful : bool) :
  reaches_fallback h text ->
  command_returns h successful ->
  exists w',
    copyText h text w =
      (Normal (if successful then Success else Failure "Copy command unsuccessful"), w') /\
    body w' = body w.
Proof.
  intros Hreach Hret.
  destruct (copyText_via_fallback h text w Hreach) as (w0 & E & Hbody & _).
  destruct (fallback_when_command_returns h text w0 successful Hret) as (w' & E' & Hb & _).
  exists w'. rewrite E. split; [exact E' | congruence].
Qed.

Lemma copyText_legacy_command_result_witness :
  (exists w',
     copyText (legacy_host (Normal false)) (JS.String "hi") empty_page
       = (Normal (Failure "Copy command unsuccessful"), w') /\
     body w' = body empty_page) /\
  (exists w',
     copyText (modern_host (Rejected (ThrownValue JS.Undefined)) (Normal true))
       (JS.String "") empty_page = (Normal Success, w') /\
     body w' = body empty_page).
Proof.
  split.
  - apply (copyText_legacy_command_result
             (legacy_host (Normal false)) (JS.String "hi") empty_page false).
    + split; [reflexivity | exact I].
    + repeat split; reflexivity.
  - apply (copyText_legacy_command_result
             (modern_host (Rejected (ThrownValue JS.Undefined)) (Normal true))
             (JS.String "") empty_page true).
    + split; [reflexivity | exists (ThrownValue JS.Undefined); reflexivity].
    + repeat split; reflexivity.
Defined.

(** C9: a falsy input other than the empty string ([undefined], [null],
    [false], [0], [-0], [NaN], [0n]) makes [copyText] resolve to the failure
    "Nothing to copy" on an unchanged page, so neither path is attempted;
    a falsy input that gets past line 21 is the empty string, and for it the
    call goes on to a copy attempt. *)
Theorem copyText_falsy_input (h : host) (text : JS.value) (w : world) :
  JS.to_boolean text = false ->
  (text <> JS.String "" ->
   copyText h text w = (Normal (Failure "Nothing to copy"), w)) /\
  (nothing_to_copy text = false -> text = JS.String "") /\
  (text = JS.String "" ->
   exists ev rest,
     trace (snd (copyText h text w)) = (trace w ++ ev :: rest)%list /\
     (ev = EvWriteText text \/ ev = EvCreateElement "textarea")).
Proof.
  intro Hfalsy. split; [|split].
  - intro Hne. unfold copyText.
    now rewrite (falsy_not_empty_rejected text Hfalsy Hne).
  - now apply falsy_string_is_empty.
  - intro Hempty. apply copyText_proceeds. subst text. reflexivity.
Qed.

Lemma copyText_falsy_input_witness :
  let h := modern_host Resolved (Normal true) in
  copyText h (JS.Number nan) empty_page = (Normal (Failure "Nothing to copy"), empty_page) /\
  copyText h (JS.Number 0%float) empty_page = (Normal (Failure "Nothing to copy"), empty_page) /\
  copyText h (JS.Boolean false) empty_page = (Normal (Failure "Nothing to copy"), empty_page) /\
  exists ev rest,
    trace (snd (copyText h (JS.String "") empty_page)) = (trace empty_page ++ ev :: rest)%list /\
    (ev = EvWriteText (JS.String "") \/ ev = EvCreateElement "textarea").
Proof.
  cbv zeta. split; [|split; [|split]].
  - apply (proj1 (copyText_falsy_input (modern_host Resolved (Normal true))
                    (JS.Number nan) empty_page eq_refl)).
    discriminate.
  - apply (proj1 (copyText_falsy_input (modern_host Resolved (Normal true))
                    (JS.Number 0%float) empty_page eq_refl)).
    discriminate.
  - apply (proj1 (copyText_falsy_input (modern_host Resolved (Normal true))
                    (JS.Boolean false) empty_page eq_refl)).
    discriminate.
  - apply (proj2 (proj2 (copyText_falsy_input (modern_host Resolved (Normal true))
                           (JS.String "") empty_page eq_refl))).
    reflexivity.
Defined.

(** C10: in the [catch] clause of the fallback, "Copy failed" stands in
    whenever [err.message] is falsy, that is absent or the empty string; so
    an exception with the empty message gives the failure "Copy failed",
    and no exception gives a failure with an empty message. *)
Theorem copyText_never_empty_message (h : host) (text : JS.value) (w : world)
    (err : thrown) :
  reaches_fallback h text ->
  fallback_raises h err ->
  exists outcome w',
    copyText h text w = (Normal outcome, w') /\
    (thrown_message err = None \/ thrown_message err = Some "" ->
     outcome = Failure "Copy failed") /\
    message outcome <> Some "".
Proof.
  intros Hreach Hraise.
  destruct (copyText_when_fallback_raises h text w err Hreach Hraise) as [w' E].
  exists (Failure (failure_message err)), w'.
  split; [exact E|]. split.
  - intros [Hm | Hm]; unfold failure_message; rewrite Hm;
      now destruct (thrown_truthy err).
  - cbn [message Failure]. intro Hm. injection Hm.
    apply failure_message_nonempty.
Qed.

Lemma copyText_never_empty_message_witness :
  exists outcome w',
    copyText (legacy_host (Throw (ThrownError "Error" (Some ""))))
      (JS.String "hi") empty_page = (Normal outcome, w') /\
    (thrown_message (ThrownError "Error" (Some "")) = None \/
     thrown_message (ThrownError "Error" (Some "")) = Some "" ->
     outcome = Failure "Copy failed") /\
    message outcome <> Some "".
Proof.
  apply (copyText_never_empty_message
           (legacy_host (Throw (ThrownError "Error" (Some ""))))
           (JS.String "hi") empty_page (ThrownError "Error" (Some ""))).
  - split; [reflexivity | exact I].
  - apply raises_execCommand; reflexivity.
Defined.

(** ** [readTextFromTarget] *)

(** The function raises only what the selector lookup raises. *)
Lemma readTextFromTarget_raises_only_from_lookup (h : host) (source : target) (err : thrown) :
  readTextFromTarget h source = Throw err ->
  exists selector, source = TSelector selector /\ querySelector h selector = Throw err.
Proof.
  unfold readTextFromTarget.
  destruct source as [selector | el |]; cbn [resolve].
  - destruct (querySelector h selector) as [[el|]|e] eqn:Hq.
    + destruct (_ || _); discriminate.
    + discriminate.
    + intro H. injection H as ->. now exists selector.
  - destruct (_ || _); discriminate.
  - discriminate.
Qed.

(** C8, as the claim states it, fails: the function has no [try], so when the
    source is a selector the document rejects, the [SyntaxError] of
    [document.querySelector] comes out of it. *)
Lemma readTextFromTarget_raises_on_invalid_selector :
  ~ (forall (h : host) (source : target),
       exists s, readTextFromTarget h source = Normal s).
Proof.
  intro H. destruct (H strict_host (TSelector "#")) as [s Hs].
  vm_compute in Hs. discriminate.
Qed.

(** C8, amended: [readTextFromTarget] raises exactly when its source is a
    selector string whose lookup raises, and then raises that exception.
    Otherwise it returns: the empty string when the source resolves to no
    element; the element's current [value] when its tag is INPUT or
    TEXTAREA; and for any other element its [textContent] when that is
    non-empty, else its [innerText] when that is a non-empty string, else the
    empty string. *)
Theorem readTextFromTarget_spec (h : host) (source : target) :
  (forall err, readTextFromTarget h source = Throw err <-> resolve h source = Throw err) /\
  (forall err, resolve h source = Throw err ->
     exists selector, source = TSelector selector /\ querySelector h selector = Throw err) /\
  (resolve h source = Normal None -> readTextFromTarget h source = Normal "") /\
  (forall el,
     resolve h source = Normal (Some el) ->
     (tagName el = "INPUT" \/ tagName el = "TEXTAREA" ->
      readTextFromTarget h source = Normal (value el)) /\
     (tagName el <> "INPUT" -> tagName el <> "TEXTAREA" ->
      (textContent el <> "" ->
       readTextFromTarget h source = Normal (textContent el)) /\
      (forall t, textContent el = "" -> innerText el = Some t -> t <> "" ->
       readTextFromTarget h source = Normal t) /\
      (textContent el = "" -> innerText el = None \/ innerText el = Some "" ->
       readTextFromTarget h source = Normal ""))).
Proof.
  split; [|split; [|split]].
  - intro err. unfold readTextFromTarget.
    destruct (resolve h source) as [[el|]|e]; [destruct (_ || _)| |];
      split; intro H; try discriminate; injection H as ->; reflexivity.
  - intros err H. destruct source as [selector | el |]; cbn in H; try discriminate.
    now exists selector.
  - intro H. unfold readTextFromTarget. now rewrite H.
  - intros el H. unfold readTextFromTarget. rewrite H. split.
    + intros [Htag | Htag]; rewrite Htag; reflexivity.
    + intros Hinput Htextarea.
      apply String.eqb_neq in Hinput, Htextarea. rewrite Hinput, Htextarea.
      unfold JS.or_else, JS.or_default. cbn [orb]. split; [|split].
      * intro Htc. apply string_truthy_true in Htc. now rewrite !Htc.
      * intros t Htc Hit Hne. rewrite Htc, Hit. cbn.
        apply string_truthy_true in Hne. now rewrite Hne.
      * intros Htc [Hit | Hit]; rewrite Htc, Hit; reflexivity.
Qed.

Lemma readTextFromTarget_spec_witness :
  let input :=
    {| node_id := 1; tagName := "INPUT"; value := "hello"; textContent := "";
       innerText := Some ""; style := [] |} in
  let block :=
    {| node_id := 2; tagName := "DIV"; value := ""; textContent := "world";
       innerText := Some "world"; style := [] |} in
  readTextFromTarget strict_host (TElement input) = Normal "hello" /\
  readTextFromTarget strict_host (TElement block) = Normal "world" /\
  readTextFromTarget strict_host (TSelector "#missing") = Normal "" /\
  readTextFromTarget strict_host (TSelector "#") = Throw SyntaxError.
Proof.
  cbv zeta. split; [|split; [|split]].
  - refine (proj1 (proj2 (proj2 (proj2 (readTextFromTarget_spec strict_host (TElement _))))
                     _ eq_refl) _).
    left. reflexivity.
  - refine (proj1 (proj2 (proj2 (proj2 (proj2 (readTextFromTarget_spec strict_host
                                                (TElement _)))) _ eq_refl) _ _) _);
      cbn; discriminate.
  - apply (proj1 (proj2 (proj2 (readTextFromTarget_spec strict_host (TSelector "#missing"))))).
    reflexivity.
  - apply (proj1 (readTextFromTarget_spec strict_host (TSelector "#"))).
    reflexivity.
Defined.

(** ** The copy-all handler *)

Lemma join_concat (sep : string) (parts : list string) :
  join sep parts = String.concat sep parts.
Proof.
  induction parts as [|x rest IH]; [reflexivity|].
  destruct rest as [|y rest]; [reflexivity|].
  cbn [join String.concat]. cbn [join String.concat] in IH. now rewrite IH.
Qed.

(** The pushes of lines 108-111 keep the non-empty sources, in order. *)
Lemma copyAll_parts_filter (shortText email message code : string) :
  copyAll_parts shortText email message code =
  map spec_render (filter spec_nonempty (spec_sources shortText email message code)).
Proof.
  unfold copyAll_parts, spec_sources, spec_nonempty, push.
  destruct shortText, email, message, code; reflexivity.
Qed.

Lemma copyAll_combined_spec (shortText email message code : string) :
  copyAll_combined shortText email message code =
  spec_combined shortText email message code.
Proof.
  unfold copyAll_combined, spec_combined.
  now rewrite join_concat, copyAll_parts_filter.
Qed.

Lemma spec_combined_empty (shortText email message code : string) :
  spec_combined shortText email message code = "" <->
  shortText = "" /\ email = "" /\ message = "" /\ code = "".
Proof.
  split.
  - destruct shortText, email, message, code; cbn; intro H;
      try discriminate; auto.
  - intros (-> & -> & -> & ->). reflexivity.
Qed.

(** C7: once the four fields are read, the handler combines them as the
    specification words it: the sources with a non-empty text, in the order
    shortText, email, message, code, the code source prefixed with "Code:"
    and a line feed, joined by two line feeds.  The combined text is empty
    exactly when all four are; then the handler only reports "Nothing to
    copy." and makes no copy attempt, and otherwise it is the combined text
    that goes to [copyText]. *)
Theorem copyAll_combines_nonempty_sources (h : host) (w : world)
    (shortText email message code : string) :
  readTextFromTarget h (TSelector "#shortText") = Normal shortText ->
  readTextFromTarget h (TSelector "#email") = Normal email ->
  readTextFromTarget h (TSelector "#message") = Normal message ->
  readTextFromTarget h (TSelector "#codeBlock") = Normal code ->
  copyAll_combined shortText email message code
    = spec_combined shortText email message code /\
  (shortText = "" /\ email = "" /\ message = "" /\ code = "" ->
   exists w',
     copyAll_click h w = (Normal tt, w') /\
     trace w' = (trace w ++ [EvPreventDefault])%list /\
     body w' = body w /\
     status_text w' = "Nothing to copy.") /\
  (~ (shortText = "" /\ email = "" /\ message = "" /\ code = "") ->
   copyAll_click h w =
     (res <- copyText h (JS.String (spec_combined shortText email message code)) ;;
      copyAll_report res) (record_event EvPreventDefault w)).
Proof.
  intros Hs He Hm Hc.
  assert (Hclick : copyAll_click h w =
            copyAll_send h (spec_combined shortText email message code)
              (record_event EvPreventDefault w)).
  { unfold copyAll_click, bind, emit, lift. rewrite Hs, He, Hm, Hc.
    now rewrite copyAll_combined_spec. }
  split; [apply copyAll_combined_spec|]. split.
  - intro Hall. apply spec_combined_empty in Hall.
    rewrite Hclick, Hall. cbn. eexists. split; [reflexivity|].
    cbn. repeat split.
  - intro Hsome. rewrite Hclick. unfold copyAll_send.
    destruct (JS.string_truthy (spec_combined shortText email message code)) eqn:E;
      [reflexivity|].
    apply string_truthy_false, spec_combined_empty in E. contradiction.
Qed.

Lemma copyAll_combines_nonempty_sources_witness :
  copyAll_combined "Hi" "" "" "x = 1" = "Hi" ++ LF ++ LF ++ "Code:" ++ LF ++ "x = 1" /\
  copyAll_click form_host empty_page =
    (res <- copyText form_host (JS.String ("Hi" ++ LF ++ LF ++ "Code:" ++ LF ++ "x = 1")) ;;
     copyAll_report res) (record_event EvPreventDefault empty_page).
Proof.
  split.
  - exact (proj1 (copyAll_combines_nonempty_sources form_host empty_page
                    "Hi" "" "" "x = 1" eq_refl eq_refl eq_refl eq_refl)).
  - apply (proj2 (proj2 (copyAll_combines_nonempty_sources form_host empty_page
                           "Hi" "" "" "x = 1" eq_refl eq_refl eq_refl eq_refl))).
    intros [H _]. discriminate H.
Defined.

(** * Further properties of the script *)

(** ** What one run of the fallback does to the page *)

(** When a host call raises: the calls made, none of them [removeChild] or
    console output, then [console.error]; nothing else changes but the body,
    which has the textarea if it had been appended. *)
Lemma fallback_raises_world (h : host) (text : JS.value) (w : world) (err : thrown) :
  fallback_raises h err ->
  exists calls extra,
    fallback h text w =
      (Normal (Failure (failure_message err)),
       {| body := body w ++ extra;
          status_text := status_text w;
          status_color := status_color w;
          copyAll_label := copyAll_label w;
          trace := trace w ++ calls ++ [EvConsoleError "Fallback copy failed" err] |})%list /\
    (extra = [] \/ extra = [temporary_textarea h text w]) /\
    existsb is_removeChild calls = false /\
    existsb is_console calls = false /\
    (exists rest, calls = EvCreateElement "textarea" :: rest).
Proof.
  intros H; destruct H as
    [err Hc | err Hc Ha | err Hc Ha Hf | err Hc Ha Hf Hs | err Hc Ha Hf Hs He];
    run_fallback; rewrite ?Hc, ?Ha, ?Hf, ?Hs, ?He; cbn;
    rewrite ?created_textarea; unfold record_event, set_body; cbn;
    rewrite <- ?app_assoc; cbn [app].
  - exists [EvCreateElement "textarea"], []. rewrite app_nil_r.
    repeat split; auto. now exists [].
  - exists [EvCreateElement "textarea"; EvAppendChild (fresh_id w)], [].
    rewrite app_nil_r. repeat split; auto. eexists; reflexivity.
  - exists [EvCreateElement "textarea"; EvAppendChild (fresh_id w); EvFocus (fresh_id w)],
      [temporary_textarea h text w].
    repeat split; auto. eexists; reflexivity.
  - exists [EvCreateElement "textarea"; EvAppendChild (fresh_id w); EvFocus (fresh_id w);
            EvSelect (fresh_id w)], [temporary_textarea h text w].
    repeat split; auto. eexists; reflexivity.
  - exists [EvCreateElement "textarea"; EvAppendChild (fresh_id w); EvFocus (fresh_id w);
            EvSelect (fresh_id w); EvExecCommand "copy"], [temporary_textarea h text w].
    repeat split; auto. eexists; reflexivity.
Qed.

(** When the legacy command returns: six calls, and the page as it was. *)
Lemma fallback_returns_world (h : host) (text : JS.value) (w : world) (successful : bool) :
  command_returns h successful ->
  fallback h text w =
    (Normal (if successful then Success else Failure "Copy command unsuccessful"),
     {| body := body w;
        status_text := status_text w;
        status_color := status_color w;
        copyAll_label := copyAll_label w;
        trace := trace w ++
          [EvCreateElement "textarea"; EvAppendChild (fresh_id w); EvFocus (fresh_id w);
           EvSelect (fresh_id w); EvExecCommand "copy"; EvRemoveChild (fresh_id w)] |})%list.
Proof.
  intros (Hc & Ha & Hf & Hs & He).
  run_fallback. rewrite Hc, Ha, Hf, Hs, He. cbn.
  rewrite created_textarea. autorewrite with page.
  rewrite appended_is_child, remove_fresh by apply textarea_is_fresh.
  unfold record_event, set_body; cbn. rewrite <- !app_assoc. cbn [app].
  now destruct successful.
Qed.

(** The page at line 36, for a call that gets there. *)
Lemma copyText_enters_fallback (h : host) (text : JS.value) (w : world) :
  reaches_fallback h text ->
  exists before,
    copyText h text w =
      fallback h text
        {| body := body w;
           status_text := status_text w;
           status_color := status_color w;
           copyAll_label := copyAll_label w;
           trace := trace w ++ before |}%list /\
    (before = [] /\ clipboard_writeText h = None \/
     exists write reason,
       clipboard_writeText h = Some write /\ write text = Rejected reason /\
       before = [EvWriteText text; EvConsoleWarn warning reason]).
Proof.
  intros [Hpass Hprimary]. unfold copyText, bind. rewrite Hpass.
  destruct (clipboard_writeText h) as [write|] eqn:Hc.
  - destruct Hprimary as [reason Hrej].
    rewrite (primary_rejected h text w write reason Hc Hrej).
    exists [EvWriteText text; EvConsoleWarn warning reason].
    split; [|right; now exists write, reason].
    unfold record_event. cbn. now rewrite <- app_assoc.
  - rewrite (primary_absent h text w Hc).
    exists []. split; [|now left].
    rewrite app_nil_r. now destruct w.
Qed.

(** The three ways through [copyText]: stopped at line 21, done at line 29,
    or on to the fallback. *)
Lemma copyText_cases (h : host) (text : JS.value) (w : world) :
  (nothing_to_copy text = true /\
   copyText h text w = (Normal (Failure "Nothing to copy"), w)) \/
  (nothing_to_copy text = false /\
   (exists write, clipboard_writeText h = Some write /\ write text = Resolved) /\
   copyText h text w = (Normal Success, record_event (EvWriteText text) w)) \/
  reaches_fallback h text.
Proof.
  unfold copyText, bind, reaches_fallback.
  destruct (nothing_to_copy text) eqn:Hpass; [now left | right].
  destruct (clipboard_writeText h) as [write|] eqn:Hc; [|now right].
  destruct (write text) as [|reason] eqn:Hw.
  - left. rewrite (primary_resolved h text w write Hc Hw).
    split; [reflexivity|]. split; [now exists write | reflexivity].
  - right. split; [reflexivity | now exists reason].
Qed.

Lemma copyText_outcome_any_page (h : host) (text : JS.value) (wa wb : world) :
  fst (copyText h text wa) = fst (copyText h text wb).
Proof.
  destruct (copyText_cases h text wa) as [[Hp Ea] | [(Hp & Hw & Ea) | Hreach]].
  - destruct (copyText_cases h text wb) as [[_ Eb] | [(Hp' & _) | [Hp' _]]];
      [now rewrite Ea, Eb | congruence | congruence].
  - destruct Hw as (write & Hc & Hw).
    rewrite Ea. unfold copyText, bind. rewrite Hp.
    now rewrite (primary_resolved h text wb write Hc Hw).
  - destruct (copyText_via_fallback h text wa Hreach) as (wa0 & Ea & _).
    destruct (copyText_via_fallback h text wb Hreach) as (wb0 & Eb & _).
    rewrite Ea, Eb. apply fallback_outcome_any_page.
Qed.

(** Every run of [copyText], as a whole: an outcome, the calls made, and at
    most one element more in the body, none after a success. *)
Lemma copyText_world (h : host) (text : JS.value) (w : world) :
  exists outcome calls extra,
    copyText h text w =
      (Normal outcome,
       {| body := body w ++ extra;
          status_text := status_text w;
          status_color := status_color w;
          copyAll_label := copyAll_label w;
          trace := trace w ++ calls |})%list /\
    (outcome = Success /\ extra = [] \/ exists msg, outcome = Failure msg /\ msg <> "").
Proof.
  destruct (copyText_cases h text w) as [[_ E] | [(_ & _ & E) | Hreach]].
  - exists (Failure "Nothing to copy"), [], []. rewrite E, !app_nil_r.
    split; [now destruct w|]. right. eexists. split; [reflexivity | discriminate].
  - exists Success, [EvWriteText text], []. rewrite E, app_nil_r.
    split; [reflexivity | now left].
  - destruct (copyText_enters_fallback h text w Hreach) as (before & E & _).
    destruct (fallback_cases h) as [[err H] | [b H]].
    + fallback_page E ltac:(fun w0 =>
        destruct (fallback_raises_world h text w0 err H) as (calls & extra & E' & _)).
      exists (Failure (failure_message err)),
        (before ++ calls ++ [EvConsoleError "Fallback copy failed" err])%list, extra.
      rewrite E, E'. cbn. rewrite <- app_assoc.
      split; [reflexivity|]. right. eexists.
      split; [reflexivity | apply failure_message_nonempty].
    + eexists. eexists. exists []. rewrite E.
      fallback_page E ltac:(fun w0 => rewrite (fallback_returns_world h text w0 b H)).
      cbn. rewrite <- app_assoc, app_nil_r. split; [reflexivity|].
      destruct b; [now left | right; eexists; split; [reflexivity | discriminate]].
Qed.

(** ** More about [copyText] *)

(** X1: [copyText] reports success exactly when the platform did: the input
    passed line 21 and either [writeText] resolved, or the fallback was
    reached, none of its DOM calls raised and the legacy command returned
    [true]. *)
Theorem copyText_success_iff (h : host) (text : JS.value) (w : world) :
  fst (copyText h text w) = Normal Success <->
  (nothing_to_copy text = false /\
   exists write, clipboard_writeText h = Some write /\ write text = Resolved) \/
  (reaches_fallback h text /\ command_returns h true).
Proof.
  split.
  - intro Hok.
    destruct (copyText_cases h text w) as [[_ E] | [(Hpass & Hw & _) | Hreach]].
    + rewrite E in Hok. discriminate.
    + left. now split.
    + right. split; [assumption|].
      destruct (copyText_via_fallback h text w Hreach) as (w0 & E & _).
      rewrite E in Hok.
      destruct (fallback_cases h) as [[err H] | [b H]].
      * destruct (fallback_when_raises h text w0 err H) as (w' & E' & _).
        rewrite E' in Hok. discriminate.
      * rewrite (fallback_returns_world h text w0 b H) in Hok.
        destruct b; [assumption | discriminate].
  - intros [(Hpass & write & Hc & Hw) | (Hreach & Hret)].
    + unfold copyText, bind. rewrite Hpass.
      now rewrite (primary_resolved h text w write Hc Hw).
    + destruct (copyText_via_fallback h text w Hreach) as (w0 & E & _).
      rewrite E. now rewrite (fallback_returns_world h text w0 true Hret).
Qed.

Lemma copyText_success_iff_witness :
  fst (copyText (legacy_host (Normal true)) (JS.String "hi") empty_page) = Normal Success.
Proof.
  apply (proj2 (copyText_success_iff (legacy_host (Normal true)) (JS.String "hi") empty_page)).
  right. split.
  - split; [reflexivity | exact I].
  - repeat split; reflexivity.
Defined.

(** X2: [copyText] never touches the status line or the label of the
    copy-all button: reporting is left to the caller. *)
Theorem copyText_keeps_status (h : host) (text : JS.value) (w : world) :
  status_text (snd (copyText h text w)) = status_text w /\
  status_color (snd (copyText h text w)) = status_color w /\
  copyAll_label (snd (copyText h text w)) = copyAll_label w.
Proof.
  destruct (copyText_cases h text w) as [[_ E] | [(_ & _ & E) | Hreach]].
  - now rewrite E.
  - now rewrite E.
  - destruct (copyText_enters_fallback h text w Hreach) as (before & E & _).
    destruct (fallback_cases h) as [[err H] | [b H]].
    + fallback_page E ltac:(fun w0 =>
        destruct (fallback_raises_world h text w0 err H) as (calls & extra & E' & _)).
      now rewrite E, E'.
    + rewrite E.
      fallback_page E ltac:(fun w0 => rewrite (fallback_returns_world h text w0 b H)).
      split; [reflexivity | split; reflexivity].
Qed.


(** X4: when the fallback is reached and the legacy command returns, the
    host calls of the fallback are exactly these six, in this order, on one
    and the same new element, and nothing is written to the console for
    them, also when the command answered [false]; before them there is
    nothing, or the rejected [writeText] and its warning. *)
Theorem copyText_fallback_call_order (h : host) (text : JS.value) (w : world)
    (successful : bool) :
  reaches_fallback h text ->
  command_returns h successful ->
  exists before,
    trace (snd (copyText h text w)) =
      (trace w ++ before ++
         [EvCreateElement "textarea"; EvAppendChild (fresh_id w); EvFocus (fresh_id w);
          EvSelect (fresh_id w); EvExecCommand "copy"; EvRemoveChild (fresh_id w)])%list /\
    (before = [] \/
     exists reason, before = [EvWriteText text; EvConsoleWarn warning reason]).
Proof.
  intros Hreach Hret.
  destruct (copyText_enters_fallback h text w Hreach) as (before & E & Hbefore).
  exists before. rewrite E.
  fallback_page E ltac:(fun w0 => rewrite (fallback_returns_world h text w0 successful Hret)).
  split.
  - cbn. now rewrite <- app_assoc.
  - destruct Hbefore as [[-> _] | (write & reason & _ & _ & ->)];
      [now left | right; now exists reason].
Qed.

Lemma copyText_fallback_call_order_witness :
  exists before,
    trace (snd (copyText (legacy_host (Normal false)) (JS.String "hi") empty_page)) =
      (trace empty_page ++ before ++
         [EvCreateElement "textarea"; EvAppendChild 1; EvFocus 1;
          EvSelect 1; EvExecCommand "copy"; EvRemoveChild 1])%list /\
    (before = [] \/
     exists reason, before = [EvWriteText (JS.String "hi"); EvConsoleWarn warning reason]).
Proof.
  apply (copyText_fallback_call_order (legacy_host (Normal false)) (JS.String "hi")
           empty_page false).
  - split; [reflexivity | exact I].
  - repeat split; reflexivity.
Defined.

(** X5: when a host call of the fallback raises, [removeChild] is not called
    at all during the call, and the last thing the call does is
    [console.error] with the message "Fallback copy failed" and the
    exception. *)
Theorem copyText_exception_skips_removeChild (h : host) (text : JS.value) (w : world)
    (err : thrown) :
  reaches_fallback h text ->
  fallback_raises h err ->
  exists calls,
    trace (snd (copyText h text w)) =
      (trace w ++ calls ++ [EvConsoleError "Fallback copy failed" err])%list /\
    existsb is_removeChild calls = false.
Proof.
  intros Hreach Hraise.
  destruct (copyText_enters_fallback h text w Hreach) as (before & E & Hbefore).
  destruct (fallback_raises_world h text
              {| body := body w; status_text := status_text w;
                 status_color := status_color w; copyAll_label := copyAll_label w;
                 trace := trace w ++ before |} err Hraise)
    as (calls & extra & E' & _ & Hno & _).
  exists (before ++ calls)%list. rewrite E, E'. split.
  - cbn. now rewrite <- !app_assoc.
  - rewrite existsb_app, Hno.
    destruct Hbefore as [[-> _] | (write & reason & _ & _ & ->)]; reflexivity.
Qed.

Lemma copyText_exception_skips_removeChild_witness :
  exists calls,
    trace (snd (copyText (legacy_host (Throw not_a_function)) (JS.String "hi") empty_page)) =
      (trace empty_page ++ calls ++
         [EvConsoleError "Fallback copy failed" not_a_function])%list /\
    existsb is_removeChild calls = false.
Proof.
  apply (copyText_exception_skips_removeChild (legacy_host (Throw not_a_function))
           (JS.String "hi") empty_page not_a_function).
  - split; [reflexivity | exact I].
  - apply raises_execCommand; reflexivity.
Defined.

(** X6: the outcome of [copyText] depends on the text and on what the browser
    answers, never on the page: whatever the document contains and whatever
    was done before, the same browser gives the same outcome, so a second
    call right after the first gives the outcome of the first. *)
Theorem copyText_outcome_independent_of_page (h : host) (text : JS.value) (w1 w2 : world) :
  fst (copyText h text w1) = fst (copyText h text w2) /\
  fst (copyText h text (snd (copyText h text w1))) = fst (copyText h text w1).
Proof.
  split; apply copyText_outcome_any_page.
Qed.

(** X7: the leaked textareas add up.  In a browser where the fallback is
    reached and a call made after [appendChild] raises, two calls of
    [copyText] one after the other leave two more elements at the end of the
    body, with different identities. *)
Theorem copyText_leaks_accumulate (h : host) (text : JS.value) (w : world) (err : thrown) :
  reaches_fallback h text ->
  raises_after_append h err ->
  exists ta1 ta2,
    body (snd (copyText h text (snd (copyText h text w)))) = (body w ++ [ta1; ta2])%list /\
    node_id ta1 <> node_id ta2 /\
    tagName ta1 = "TEXTAREA" /\ tagName ta2 = "TEXTAREA".
Proof.
  intros Hreach Hraise.
  destruct (copyText_via_fallback h text w Hreach) as (w0 & E0 & Hb0 & _).
  destruct (fallback_leaks_after_append h text w0 err Hraise) as (w1 & E1 & Hb1).
  rewrite E0, E1. cbn [snd].
  destruct (copyText_via_fallback h text w1 Hreach) as (w2 & E2 & Hb2 & _).
  destruct (fallback_leaks_after_append h text w2 err Hraise) as (w3 & E3 & Hb3).
  rewrite E2, E3. cbn [snd].
  exists (temporary_textarea h text w0), (temporary_textarea h text w2).
  split; [|split; [|split; reflexivity]].
  - rewrite Hb3, Hb2, Hb1, Hb0. now rewrite <- app_assoc.
  - assert (Hin : In (temporary_textarea h text w0) (body w2)).
    { rewrite Hb2, Hb1. apply in_or_app. right. now left. }
    apply body_below_fresh in Hin. rewrite (textarea_is_fresh h text w2). lia.
Qed.

Lemma copyText_leaks_accumulate_witness :
  exists ta1 ta2,
    body (snd (copyText (legacy_host (Throw not_a_function)) (JS.String "hi")
                 (snd (copyText (legacy_host (Throw not_a_function)) (JS.String "hi")
                         empty_page))))
      = (body empty_page ++ [ta1; ta2])%list /\
    node_id ta1 <> node_id ta2 /\
    tagName ta1 = "TEXTAREA" /\ tagName ta2 = "TEXTAREA".
Proof.
  apply (copyText_leaks_accumulate (legacy_host (Throw not_a_function)) (JS.String "hi")
           empty_page not_a_function).
  - split; [reflexivity | exact I].
  - apply after_append_execCommand; reflexivity.
Defined.

(** ** More about the copy-all handler *)

Lemma lookup_cases (h : host) (selector : string) :
  (exists s, readTextFromTarget h (TSelector selector) = Normal s) \/
  (exists err, readTextFromTarget h (TSelector selector) = Throw err /\
               querySelector h selector = Throw err).
Proof.
  unfold readTextFromTarget. cbn [resolve].
  destruct (querySelector h selector) as [[el|]|err].
  - left. destruct (_ || _); eexists; reflexivity.
  - left. eexists; reflexivity.
  - right. now exists err.
Qed.

Lemma lookup_raises (h : host) (selector : string) (err : thrown) :
  querySelector h selector = Throw err ->
  readTextFromTarget h (TSelector selector) = Throw err.
Proof.
  intro H. unfold readTextFromTarget. cbn [resolve]. now rewrite H.
Qed.

Lemma copyAll_report_runs (res : CopyOutcome) (w : world) :
  exists w', copyAll_report res w = (Normal tt, w').
Proof.
  unfold copyAll_report. destruct (ok res); eexists; reflexivity.
Qed.

Lemma copyAll_send_runs (h : host) (combined : string) (w : world) :
  exists w', copyAll_send h combined w = (Normal tt, w').
Proof.
  unfold copyAll_send.
  destruct (negb (JS.string_truthy combined)); [eexists; reflexivity|].
  unfold bind.
  destruct (copyText_world h (JS.String combined) w) as (o & calls & extra & E & _).
  rewrite E. apply copyAll_report_runs.
Qed.

(** X8: the copy-all handler raises exactly when one of its four selector
    lookups does; it then stops right after [preventDefault], with the status
    line untouched and no copy attempted.  When the four lookups return, the
    handler completes, whatever the copy does. *)
Theorem copyAll_click_raises_iff (h : host) (w : world) :
  ((exists err, fst (copyAll_click h w) = Throw err) <->
   (exists selector err,
      In selector ["#shortText"; "#email"; "#message"; "#codeBlock"] /\
      querySelector h selector = Throw err)) /\
  (forall err,
     fst (copyAll_click h w) = Throw err ->
     snd (copyAll_click h w) = record_event EvPreventDefault w).
Proof.
  unfold copyAll_click, bind, emit, lift.
  destruct (lookup_cases h "#shortText") as [[s Hs] | (e1 & Hs & Q1)]; rewrite Hs.
  2:{ split; [|intros; reflexivity]. split; [intros _ | intros _; now exists e1].
      exists "#shortText", e1. split; [cbn; auto 10 | assumption]. }
  destruct (lookup_cases h "#email") as [[e He] | (e2 & He & Q2)]; rewrite He.
  2:{ split; [|intros; reflexivity]. split; [intros _ | intros _; now exists e2].
      exists "#email", e2. split; [cbn; auto 10 | assumption]. }
  destruct (lookup_cases h "#message") as [[m Hm] | (e3 & Hm & Q3)]; rewrite Hm.
  2:{ split; [|intros; reflexivity]. split; [intros _ | intros _; now exists e3].
      exists "#message", e3. split; [cbn; auto 10 | assumption]. }
  destruct (lookup_cases h "#codeBlock") as [[c Hc] | (e4 & Hc & Q4)]; rewrite Hc.
  2:{ split; [|intros; reflexivity]. split; [intros _ | intros _; now exists e4].
      exists "#codeBlock", e4. split; [cbn; auto 10 | assumption]. }
  destruct (copyAll_send_runs h (copyAll_combined s e m c) (record_event EvPreventDefault w))
    as [w' E].
  rewrite E. cbn [fst snd]. split; [|discriminate].
  split; [intros [err H]; discriminate|].
  intros (selector & err & Hin & Hq). exfalso.
  cbn in Hin.
  destruct Hin as [<- | [<- | [<- | [<- | []]]]];
    apply (lookup_raises h _ err) in Hq; congruence.
Qed.

Lemma copyAll_click_raises_iff_witness :
  exists err, fst (copyAll_click rejecting_host empty_page) = Throw err.
Proof.
  apply (proj2 (proj1 (copyAll_click_raises_iff rejecting_host empty_page))).
  exists "#email", SyntaxError. split; [cbn; auto 10 | reflexivity].
Defined.

Lemma copyAll_click_sends (h : host) (w : world) (shortText email message code : string) :
  readTextFromTarget h (TSelector "#shortText") = Normal shortText ->
  readTextFromTarget h (TSelector "#email") = Normal email ->
  readTextFromTarget h (TSelector "#message") = Normal message ->
  readTextFromTarget h (TSelector "#codeBlock") = Normal code ->
  copyAll_combined shortText email message code <> "" ->
  copyAll_click h w =
    (res <- copyText h (JS.String (copyAll_combined shortText email message code)) ;;
     copyAll_report res) (record_event EvPreventDefault w).
Proof.
  intros Hs He Hm Hc Hne.
  unfold copyAll_click, bind, emit, lift. rewrite Hs, He, Hm, Hc.
  unfold copyAll_send. apply string_truthy_true in Hne. now rewrite Hne.
Qed.



(** X10: when the four fields are read, their combined text is not empty and
    the copy fails with [msg], the handler ends with the status "Copy
    failed: " followed by [msg], in the error colour, and leaves the button's
    label alone and sets no timer.  The message is never empty, so the text
    "unknown error" of line 126 is never shown. *)
Theorem copyAll_click_reports_failure (h : host) (w : world)
    (shortText email message code msg : string) :
  readTextFromTarget h (TSelector "#shortText") = Normal shortText ->
  readTextFromTarget h (TSelector "#email") = Normal email ->
  readTextFromTarget h (TSelector "#message") = Normal message ->
  readTextFromTarget h (TSelector "#codeBlock") = Normal code ->
  copyAll_combined shortText email message code <> "" ->
  fst (copyText h (JS.String (copyAll_combined shortText email message code)) w)
    = Normal (Failure msg) ->
  msg <> "" /\
  exists w',
    copyAll_click h w = (Normal tt, w') /\
    status_text w' = "Copy failed: " ++ msg /\
    status_color w' = "#ffbaba" /\
    copyAll_label w' = copyAll_label w /\
    trace w' =
      trace (snd (copyText h (JS.String (copyAll_combined shortText email message code))
                    (record_event EvPreventDefault w))).
Proof.
  intros Hs He Hm Hc Hne Hfail.
  rewrite (copyAll_click_sends h w _ _ _ _ Hs He Hm Hc Hne).
  rewrite (copyText_outcome_any_page h _ w (record_event EvPreventDefault w)) in Hfail.
  unfold bind.
  destruct (copyText_world h (JS.String (copyAll_combined shortText email message code))
              (record_event EvPreventDefault w)) as (o & calls & extra & E & Ho).
  rewrite E in Hfail |- *. cbn [fst] in Hfail. injection Hfail as ->.
  destruct Ho as [[Habs _] | (msg' & Hmsg & Hne')]; [discriminate|].
  injection Hmsg as <-.
  split; [assumption|].
  eexists. split; [reflexivity|]. cbn.
  apply string_truthy_true in Hne'. rewrite Hne'. repeat split.
Qed.

Lemma copyAll_click_reports_failure_witness :
  "Copy command unsuccessful" <> "" /\
  exists w',
    copyAll_click legacy_form_host empty_page = (Normal tt, w') /\
    status_text w' = "Copy failed: Copy command unsuccessful" /\
    status_color w' = "#ffbaba" /\
    copyAll_label w' = copyAll_label empty_page /\
    trace w' =
      trace (snd (copyText legacy_form_host (JS.String (copyAll_combined "Hi" "" "" "x = 1"))
                    (record_event EvPreventDefault empty_page))).
Proof.
  apply (copyAll_click_reports_failure legacy_form_host empty_page
           "Hi" "" "" "x = 1" "Copy command unsuccessful"); try reflexivity.
  discriminate.
Defined.

Lemma append_empty_r (s : string) : s ++ "" = s.
Proof.
  induction s as [|c s IH]; [reflexivity|]. cbn. now rewrite IH.
Qed.

Lemma append_associative (a b c : string) : (a ++ b) ++ c = a ++ b ++ c.
Proof.
  induction a as [|x a IH]; [reflexivity|]. cbn. now rewrite IH.
Qed.

(** [join] loses nothing: every part is in the result, as it is. *)
Lemma join_contains (sep : string) (parts : list string) (x : string) :
  In x parts ->
  exists before after, join sep parts = before ++ x ++ after.
Proof.
  induction parts as [|y rest IH]; [intros []|].
  intros [-> | Hin].
  - exists "". destruct rest as [|z rest].
    + exists "". cbn. now rewrite append_empty_r.
    + eexists. cbn [join]. reflexivity.
  - destruct (IH Hin) as (before & after & E).
    destruct rest as [|z rest]; [destruct Hin|].
    exists (y ++ sep ++ before), after.
    change (join sep (y :: z :: rest)) with (y ++ sep ++ join sep (z :: rest)).
    rewrite E. now rewrite !append_associative.
Qed.

(** X11: the combined text loses no field: each of the short text, the
    e-mail and the message that is not empty occurs in it character for
    character, and so does a non-empty code, right after its "Code:" line. *)
Theorem copyAll_combined_keeps_fields (shortText email message code : string) :
  (shortText <> "" ->
   exists before after,
     copyAll_combined shortText email message code = before ++ shortText ++ after) /\
  (email <> "" ->
   exists before after,
     copyAll_combined shortText email message code = before ++ email ++ after) /\
  (message <> "" ->
   exists before after,
     copyAll_combined shortText email message code = before ++ message ++ after) /\
  (code <> "" ->
   exists before after,
     copyAll_combined shortText email message code
       = before ++ ("Code:" ++ LF ++ code) ++ after).
Proof.
  unfold copyAll_combined.
  repeat split; intro Hne; apply join_contains;
    apply string_truthy_true in Hne; unfold copyAll_parts, push; rewrite Hne;
    repeat match goal with
           | |- context [JS.string_truthy ?s] => destruct (JS.string_truthy s)
           end; cbn; auto 10.
Qed.

Lemma copyAll_combined_keeps_fields_witness :
  exists before after,
    copyAll_combined "Hi" "a@b.c" "" "x = 1" = before ++ "a@b.c" ++ after.
Proof.
  apply (proj1 (proj2 (copyAll_combined_keeps_fields "Hi" "a@b.c" "" "x = 1"))).
  discriminate.
Defined.

(** ** The copy buttons *)

Lemma not_in_classList_remove (token : string) (classes : list string) :
  ~ In token classes ->
  classList_remove token classes = classes.
Proof.
  intro Hnot. unfold classList_remove.
  apply forallb_filter_id, forallb_forall. intros t Hin.
  destruct (String.eqb_spec token t) as [-> | _]; [contradiction | reflexivity].
Qed.

Lemma classList_remove_app (token : string) (a b : list string) :
  classList_remove token (a ++ b) = (classList_remove token a ++ classList_remove token b)%list.
Proof.
  apply filter_app.
Qed.

Lemma classList_add_has (token : string) (classes : list string) :
  In token (classList_add token classes).
Proof.
  unfold classList_add.
  destruct (existsb (String.eqb token) classes) eqn:E.
  - apply existsb_exists in E. destruct E as (t & Hin & Ht).
    apply String.eqb_eq in Ht. now subst.
  - apply in_or_app. right. now left.
Qed.

(** X12: showing "Copied!" and putting the label back is a round trip.
    [indicateButtonCopied] labels the button "Copied!", gives it the class
    [copied] and sets one timer of 1200 ms that remembers the label; when
    that timer fires, the label is the remembered one, and for a button that
    did not have the class [copied] before, the whole button is as it was. *)
Theorem indicateButtonCopied_round_trip (btn : button) (w : world) :
  exists shown,
    indicateButtonCopied btn w =
      (Normal shown, record_event (EvSetTimeout (btn_textContent btn) 1200) w) /\
    btn_textContent shown = "Copied!" /\
    In "copied" (btn_classList shown) /\
    btn_textContent (indicateButtonCopied_timeout (btn_textContent btn) shown)
      = btn_textContent btn /\
    (~ In "copied" (btn_classList btn) ->
     indicateButtonCopied_timeout (btn_textContent btn) shown = btn).
Proof.
  eexists. split; [reflexivity|].
  cbn [btn_textContent btn_classList btn_copyTarget].
  split; [reflexivity|]. split; [apply classList_add_has|]. split; [reflexivity|].
  intro Hnot. unfold indicateButtonCopied_timeout.
  destruct btn as [label classes target].
  cbn [btn_textContent btn_classList btn_copyTarget] in *. f_equal.
  unfold classList_add.
  destruct (existsb (String.eqb "copied") classes) eqn:E.
  - apply existsb_exists in E. destruct E as (t & Hin & Ht).
    apply String.eqb_eq in Ht. subst t. contradiction.
  - rewrite classList_remove_app, (not_in_classList_remove _ _ Hnot).
    unfold classList_remove. cbn. apply app_nil_r.
Qed.

Lemma indicateButtonCopied_round_trip_witness :
  exists shown,
    indicateButtonCopied (sample_button (Some "#email")) empty_page =
      (Normal shown, record_event (EvSetTimeout "Copy" 1200) empty_page) /\
    indicateButtonCopied_timeout "Copy" shown = sample_button (Some "#email").
Proof.
  destruct (indicateButtonCopied_round_trip (sample_button (Some "#email")) empty_page)
    as (shown & E & _ & _ & _ & Hback).
  exists shown. split; [exact E|]. apply Hback.
  cbn. intros [H | []]. discriminate H.
Defined.

(** X13: a second indication while the first still shows does not come
    back.  Two calls of [indicateButtonCopied] in a row set two timers, the
    second remembering the label "Copied!"; once both have fired, in the
    order they were set, the button is labelled "Copied!" for good, whatever
    its label was, and is without the class [copied]. *)
Theorem indicateButtonCopied_twice_sticks (btn : button) (w : world) :
  exists first second w',
    (shown <- indicateButtonCopied btn ;; indicateButtonCopied shown) w
      = (Normal second, w') /\
    trace w' = (trace w ++ [first; EvSetTimeout "Copied!" 1200])%list /\
    first = EvSetTimeout (btn_textContent btn) 1200 /\
    btn_textContent (fire_timers [first; EvSetTimeout "Copied!" 1200] second) = "Copied!" /\
    ~ In "copied" (btn_classList (fire_timers [first; EvSetTimeout "Copied!" 1200] second)).
Proof.
  eexists. eexists. eexists. split; [reflexivity|].
  split; [unfold record_event; cbn; now rewrite <- app_assoc|].
  split; [reflexivity|]. split; [reflexivity|].
  cbn. unfold classList_remove. intro Hin.
  apply filter_In in Hin. destruct Hin as [_ Hin]. discriminate Hin.
Qed.

Lemma copyButton_report_runs (btn : button) (res : CopyOutcome) (w : world) :
  exists shown timers,
    copyButton_report btn res w =
      (Normal shown,
       {| body := body w;
          status_text := status_text (snd (copyButton_report btn res w));
          status_color := status_color (snd (copyButton_report btn res w));
          copyAll_label := copyAll_label w;
          trace := trace w ++ timers |})%list.
Proof.
  unfold copyButton_report, indicateButtonCopied, bind, emit, ret, showStatus, record_event.
  destruct (ok res); cbn.
  - eexists. eexists. reflexivity.
  - eexists. exists []. now rewrite app_nil_r.
Qed.

(** X14: a click on a copy button attempts a copy only with a text in
    hand.  If the click calls [writeText] or creates the textarea, then the
    button has a non-empty [data-copy-target], the lookup returned and the
    text read is not empty: the empty string never reaches [copyText] from a
    button.  If the click returns without a copy attempt, the button is
    untouched and the status line says, in the error colour, "No target
    found to copy." or "Nothing to copy.". *)
Theorem copyButton_click_attempts_copy_only_with_text (h : host) (btn : button) (w : world) :
  exists added,
    trace (snd (copyButton_click h btn w)) = (trace w ++ EvPreventDefault :: added)%list /\
    (existsb is_copy_attempt added = true ->
     exists target text,
       btn_copyTarget btn = Some target /\ target <> "" /\
       readTextFromTarget h (TSelector target) = Normal text /\ text <> "") /\
    (existsb is_copy_attempt added = false ->
     forall shown, fst (copyButton_click h btn w) = Normal shown ->
     shown = btn /\
     status_color (snd (copyButton_click h btn w)) = "#ffbaba" /\
     (status_text (snd (copyButton_click h btn w)) = "No target found to copy." \/
      status_text (snd (copyButton_click h btn w)) = "Nothing to copy.")).
Proof.
  unfold copyButton_click, bind, emit, lift.
  destruct (btn_copyTarget btn) as [target|] eqn:Ht.
  2:{ exists []. cbn. split; [reflexivity|]. split; [discriminate|].
      intros _ shown H. injection H as <-. auto. }
  destruct (JS.string_truthy target) eqn:Htarget; cbn [negb].
  2:{ exists []. cbn. split; [reflexivity|]. split; [discriminate|].
      intros _ shown H. injection H as <-. auto. }
  destruct (readTextFromTarget h (TSelector target)) as [text|err] eqn:Hread.
  2:{ exists []. cbn. split; [reflexivity|]. split; discriminate. }
  destruct (JS.string_truthy text) eqn:Htext; cbn [negb].
  2:{ exists []. cbn. split; [reflexivity|]. split; [discriminate|].
      intros _ shown H. injection H as <-. auto. }
  assert (Hknown : exists target0 text0,
             Some target = Some target0 /\ target0 <> "" /\
             readTextFromTarget h (TSelector target0) = Normal text0 /\ text0 <> "").
  { exists target, text.
    split; [reflexivity|]. split; [now apply string_truthy_true|].
    split; [exact Hread | now apply string_truthy_true]. }
  destruct (copyText_proceeds h (JS.String text) (record_event EvPreventDefault w)
              (string_passes text)) as (ev & rest & Htrace & Hev).
  destruct (copyText_world h (JS.String text) (record_event EvPreventDefault w))
    as (o & calls & extra & E & _).
  rewrite E in Htrace |- *. cbn [snd trace] in Htrace.
  apply app_inv_head in Htrace. subst calls.
  match goal with
  | |- context [copyButton_report btn o ?w1] =>
      destruct (copyButton_report_runs btn o w1) as (shown & timers & R)
  end.
  rewrite R. cbn [snd fst trace].
  exists (ev :: rest ++ timers)%list. split.
  - rewrite trace_record_event, <- !app_assoc. reflexivity.
  - split; [intros _; exact Hknown|].
    intro Hnone. exfalso. cbn in Hnone.
    destruct Hev as [-> | ->]; discriminate Hnone.
Qed.

Lemma copyButton_click_attempts_copy_only_with_text_witness :
  exists added,
    trace (snd (copyButton_click form_host (sample_button (Some "#email")) empty_page))
      = (trace empty_page ++ EvPreventDefault :: added)%list /\
    status_text (snd (copyButton_click form_host (sample_button (Some "#email")) empty_page))
      = "Nothing to copy.".
Proof.
  destruct (copyButton_click_attempts_copy_only_with_text
              form_host (sample_button (Some "#email")) empty_page)
    as (added & Htrace & _ & Hquiet).
  exists added. split; [exact Htrace|].
  cbn in Htrace. injection Htrace as <-.
  destruct (Hquiet eq_refl (sample_button (Some "#email")) eq_refl) as (_ & _ & [H | H]).
  - discriminate H.
  - exact H.
Defined.

Lemma copyButton_click_sends (h : host) (btn : button) (w : world) (target text : string) :
  btn_copyTarget btn = Some target ->
  target <> "" ->
  readTextFromTarget h (TSelector target) = Normal text ->
  text <> "" ->
  copyButton_click h btn w =
    (res <- copyText h (JS.String text) ;; copyButton_report btn res)
      (record_event EvPreventDefault w).
Proof.
  intros Ht Htarget Hread Htext.
  apply string_truthy_true in Htarget, Htext.
  unfold copyButton_click, bind, emit, lift.
  now rewrite Ht, Htarget, Hread, Htext.
Qed.



(** X16: when a button's target yields a non-empty text and the copy fails
    with [msg], the click returns the button as it was, sets no timer, and
    the status line says "Copy failed: " followed by [msg] in the error
    colour; [msg] is never empty, so "unknown error" (line 94) is never
    shown. *)
Theorem copyButton_click_reports_failure (h : host) (btn : button) (w : world)
    (target text msg : string) :
  btn_copyTarget btn = Some target ->
  target <> "" ->
  readTextFromTarget h (TSelector target) = Normal text ->
  text <> "" ->
  fst (copyText h (JS.String text) w) = Normal (Failure msg) ->
  msg <> "" /\
  exists w',
    copyButton_click h btn w = (Normal btn, w') /\
    status_text w' = "Copy failed: " ++ msg /\
    status_color w' = "#ffbaba" /\
    trace w' = trace (snd (copyText h (JS.String text) (record_event EvPreventDefault w))).
Proof.
  intros Ht Htarget Hread Htext Hfail.
  rewrite (copyButton_click_sends h btn w target text Ht Htarget Hread Htext).
  rewrite (copyText_outcome_any_page h _ w (record_event EvPreventDefault w)) in Hfail.
  unfold bind.
  destruct (copyText_world h (JS.String text) (record_event EvPreventDefault w))
    as (o & calls & extra & E & Ho).
  rewrite E in Hfail |- *. cbn [fst] in Hfail. injection Hfail as ->.
  destruct Ho as [[Habs _] | (msg' & Hmsg & Hne)]; [discriminate|].
  injection Hmsg as <-.
  split; [assumption|].
  eexists. split; [reflexivity|]. cbn.
  apply string_truthy_true in Hne. rewrite Hne. repeat split.
Qed.

Lemma copyButton_click_reports_failure_witness :
  "Copy command unsuccessful" <> "" /\
  exists w',
    copyButton_click legacy_form_host (sample_button (Some "#codeBlock")) empty_page
      = (Normal (sample_button (Some "#codeBlock")), w') /\
    status_text w' = "Copy failed: Copy command unsuccessful" /\
    status_color w' = "#ffbaba" /\
    trace w' = trace (snd (copyText legacy_form_host (JS.String "x = 1")
                             (record_event EvPreventDefault empty_page))).
Proof.
  apply (copyButton_click_reports_failure legacy_form_host
           (sample_button (Some "#codeBlock")) empty_page "#codeBlock" "x = 1"
           "Copy command unsuccessful"); try reflexivity; discriminate.
Defined.

(** ** The support notice *)

Lemma clipboard_unsupported_spec (h : host) :
  clipboard_unsupported h = true <-> clipboard_writeText h = None.
Proof.
  unfold clipboard_unsupported, clipboard_writeText.
  destruct (navigator_clipboard h) as [c|]; [|now split].
  destruct (writeText c); split; intro H; try reflexivity; discriminate.
Qed.

(** X17: the notice shown when the script loads agrees with what [copyText]
    does later.  Either [checkSupport] puts the notice on the status line, in
    the normal colour, and every copy of an input that passes line 21 goes
    straight to the textarea; or it leaves the page alone and every such
    copy starts with [writeText]. *)
Theorem checkSupport_matches_copyText (h : host) (text : JS.value) (w w0 : world) :
  nothing_to_copy text = false ->
  (status_text (snd (checkSupport h w0)) = support_notice /\
   status_color (snd (checkSupport h w0)) = "" /\
   exists rest,
     trace (snd (copyText h text w)) = (trace w ++ EvCreateElement "textarea" :: rest)%list)
  \/
  (checkSupport h w0 = (Normal tt, w0) /\
   exists rest,
     trace (snd (copyText h text w)) = (trace w ++ EvWriteText text :: rest)%list).
Proof.
  intro Hpass. unfold checkSupport.
  destruct (clipboard_unsupported h) eqn:Hu.
  - left. apply clipboard_unsupported_spec in Hu.
    split; [reflexivity|]. split; [reflexivity|].
    unfold copyText, bind. rewrite Hpass, (primary_absent h text w Hu).
    apply fallback_begins.
  - right. split; [reflexivity|].
    destruct (clipboard_writeText h) as [write|] eqn:Hc.
    2:{ apply clipboard_unsupported_spec in Hc. congruence. }
    unfold copyText, bind. rewrite Hpass.
    destruct (write text) as [|reason] eqn:Hw.
    + rewrite (primary_resolved h text w write Hc Hw). exists []. apply trace_record_event.
    + rewrite (primary_rejected h text w write reason Hc Hw).
      match goal with
      | |- context [fallback h text ?w1] => destruct (fallback_begins h text w1) as [rest Ht]
      end.
      rewrite Ht. page. eexists. reflexivity.
Qed.

Lemma checkSupport_matches_copyText_witness :
  status_text (snd (checkSupport (legacy_host (Normal true)) empty_page)) = support_notice /\
  exists rest,
    trace (snd (copyText (legacy_host (Normal true)) (JS.String "hi") empty_page)) =
      (trace empty_page ++ EvCreateElement "textarea" :: rest)%list.
Proof.
  destruct (checkSupport_matches_copyText (legacy_host (Normal true)) (JS.String "hi")
              empty_page empty_page eq_refl) as [(Hs & _ & Ht) | (Hs & _)].
  - split; [exact Hs | exact Ht].
  - discriminate Hs.
Defined.
